(** * Customer analytics dashboard: the backend, embedded and verified

    A shallow embedding of [backend.py]: the identifier sanitizer, the
    SQL type inference, the pandas aggregations behind the key metrics and
    the business insights, and the PostgreSQL session behind ingestion and
    retrieval.

    Conventions of the embedding.
    - A Python [str] is a Rocq [string]; a character is a code point below
      256 (Latin-1), on which [str.lower] is modelled exactly.
    - numpy [int64] and [float64] cells are exact integers ([Z]) and exact
      rationals ([Q]); overflow and binary rounding are not modelled.
      Missing values (NaN, NaT, None) are not modelled either: every cell
      of a column holds a value.
    - A [datetime64] cell is a number of nanoseconds since the epoch.
    - A Python exception is a value of type [Exn]; a function that may
      raise returns a [Result]. *)

From Stdlib Require Import ZArith QArith List String Ascii Bool Lia.
From Stdlib Require Import DecimalString Sorted Permutation.
From stdpp Require Import gmap strings.

Import ListNotations.
Local Open Scope string_scope.
Local Open Scope list_scope.

(** ** Python strings *)

Module PyStr.

(** The double quote, code point 34. *)
Definition dquote : ascii := "034"%char.

Definition code (c : ascii) : N := N_of_ascii c.

Definition in_range (lo hi : N) (c : ascii) : bool :=
  ((lo <=? code c) && (code c <=? hi))%N.

(** [str.lower] on one Latin-1 character: A-Z, and the accented capitals
    U+00C0..U+00DE but the multiplication sign U+00D7, move up by 32. *)
Definition lower_char (c : ascii) : ascii :=
  if in_range 65 90 c
     || (in_range 192 222 c && negb (code c =? 215)%N)
  then ascii_of_N (code c + 32)
  else c.

Fixpoint map_chars (f : ascii -> ascii) (s : string) : string :=
  match s with
  | EmptyString => EmptyString
  | String c r => String (f c) (map_chars f r)
  end.

Fixpoint filter_chars (p : ascii -> bool) (s : string) : string :=
  match s with
  | EmptyString => EmptyString
  | String c r => if p c then String c (filter_chars p r) else filter_chars p r
  end.

Fixpoint all_chars (p : ascii -> bool) (s : string) : bool :=
  match s with
  | EmptyString => true
  | String c r => p c && all_chars p r
  end.

(** [s.lower()] *)
Definition lower (s : string) : string := map_chars lower_char s.

(** [s.replace(a, b)] for one-character [a] and [b]. *)
Definition replace_char (a b : ascii) (s : string) : string :=
  map_chars (fun c => if Ascii.eqb c a then b else c) s.

(** The character class [[a-z0-9_]]. *)
Definition is_ident_char (c : ascii) : bool :=
  in_range 97 122 c || in_range 48 57 c || (code c =? 95)%N.

(** [re.sub(r'[^a-z0-9_]', '', s)]: every character outside the class
    is deleted. *)
Definition re_sub_non_ident (s : string) : string :=
  filter_chars is_ident_char s.

Fixpoint lstrip_char (a : ascii) (s : string) : string :=
  match s with
  | EmptyString => EmptyString
  | String c r => if Ascii.eqb c a then lstrip_char a r else s
  end.

(** [rstrip_char a s]: [s] without its trailing run of [a]. *)
Fixpoint rstrip_char (a : ascii) (s : string) : string :=
  match s with
  | EmptyString => EmptyString
  | String c r =>
      match rstrip_char a r with
      | EmptyString => if Ascii.eqb c a then EmptyString else String c EmptyString
      | r' => String c r'
      end
  end.

(** [s.strip(a)] for a one-character [a]. *)
Definition strip_char (a : ascii) (s : string) : string :=
  rstrip_char a (lstrip_char a s).

(** The f-string of [sanitize_column_name]: [s] between two double
    quotes. *)
Definition quoted (s : string) : string :=
  String dquote (s ++ String dquote EmptyString).

End PyStr.

(** ** Identifier sanitizer *)

(** The body of [sanitize_column_name] before the final quoting. *)
Definition sanitize_core (col_name : string) : string :=
  PyStr.re_sub_non_ident (PyStr.replace_char " " "_" (PyStr.lower col_name)).

Definition sanitize_column_name (col_name : string) : string :=
  PyStr.quoted (sanitize_core col_name).

(** [sanitize_column_name(name)] with the double quotes stripped again,
    the form used for table names and for the second renaming of the
    columns. *)
Definition sanitized_name (name : string) : string :=
  PyStr.strip_char PyStr.dquote (sanitize_column_name name).

(** ** Exceptions and results *)

(** The Python exceptions the modelled code can raise.  [NotModelled]
    marks a pandas behaviour that lies outside the embedding (a lookup of
    a duplicated label, an aggregate of a column of length zero): the
    theorems below exclude those inputs by hypothesis. *)
Inductive Exn : Type :=
| KeyError (key : string)
| TypeError
| ValueError
| AttributeError
| ZeroDivisionError
| DatabaseError
| NotModelled.

Inductive Result (A : Type) : Type :=
| Return (a : A)
| Raise (e : Exn).
Arguments Return {A} a.
Arguments Raise {A} e.

Definition bind {A B : Type} (m : Result A) (k : A -> Result B) : Result B :=
  match m with
  | Return a => k a
  | Raise e => Raise e
  end.

Notation "'let!' x ':=' m 'in' k" := (bind m (fun x => k))
  (at level 10, x name, m at level 100, k at level 200).

Definition raises {A : Type} (m : Result A) : Prop := exists e, m = Raise e.

(** ** pandas: series and frames *)

Module Pandas.

Inductive Dtype : Type := int64 | float64 | bool_ | datetime64 | object_.

(** A column: a dtype together with cells of that dtype.  An [object]
    column holds Python strings, as [read_csv] produces it. *)
Inductive Series : Type :=
| IntS (cells : list Z)
| FloatS (cells : list Q)
| BoolS (cells : list bool)
| DatetimeS (cells : list Z)
| ObjectS (cells : list string).

Definition dtype (s : Series) : Dtype :=
  match s with
  | IntS _ => int64
  | FloatS _ => float64
  | BoolS _ => bool_
  | DatetimeS _ => datetime64
  | ObjectS _ => object_
  end.

(** A single cell, as Python sees it. *)
Inductive Scalar : Type :=
| SInt (z : Z)
| SFloat (q : Q)
| SBool (b : bool)
| STime (ns : Z)
| SStr (s : string).

Definition values (s : Series) : list Scalar :=
  match s with
  | IntS l => map SInt l
  | FloatS l => map SFloat l
  | BoolS l => map SBool l
  | DatetimeS l => map STime l
  | ObjectS l => map SStr l
  end.

Definition size (s : Series) : nat := length (values s).

(** Equality of cells as [nunique] and [groupby] see it. *)
Definition scalar_eqb (a b : Scalar) : bool :=
  match a, b with
  | SInt x, SInt y => Z.eqb x y
  | SFloat x, SFloat y => Qeq_bool x y
  | SBool x, SBool y => Bool.eqb x y
  | STime x, STime y => Z.eqb x y
  | SStr x, SStr y => String.eqb x y
  | _, _ => false
  end.

(** A frame: its labelled columns in order.  Labels may repeat. *)
Definition DataFrame : Type := list (string * Series).

Definition labels (df : DataFrame) : list string := map fst df.

(** [df.shape[0]] *)
Definition nrows (df : DataFrame) : nat :=
  match df with
  | [] => 0
  | (_, s) :: _ => size s
  end.

(** Every column has the length of the index. *)
Definition aligned (df : DataFrame) : Prop :=
  Forall (fun c => size (snd c) = nrows df) df.

(** [df.empty]: no column or no row. *)
Definition empty (df : DataFrame) : bool :=
  match df with
  | [] => true
  | _ => Nat.eqb (nrows df) 0
  end.

(** [df[label]] selects every column that carries the label. *)
Inductive Selection : Type :=
| OneColumn (s : Series)
| SubFrame (cols : list Series).

Definition selected (df : DataFrame) (label : string) : list Series :=
  map snd (List.filter (fun c => String.eqb (fst c) label) df).

Definition getitem (df : DataFrame) (label : string) : Result Selection :=
  match selected df label with
  | [] => Raise (KeyError label)
  | [s] => Return (OneColumn s)
  | cols => Return (SubFrame cols)
  end.

(** [pd.api.types.is_numeric_dtype]: integer, float and boolean dtypes;
    a frame, which has no dtype of its own, is not numeric. *)
Definition is_numeric_dtype (x : Selection) : bool :=
  match x with
  | OneColumn s =>
      match dtype s with
      | int64 | float64 | bool_ => true
      | datetime64 | object_ => false
      end
  | SubFrame _ => false
  end.

Definition is_integer_dtype (x : Selection) : bool :=
  match x with
  | OneColumn s =>
      match dtype s with
      | int64 => true
      | _ => false
      end
  | SubFrame _ => false
  end.

Definition is_datetime64_any_dtype (x : Selection) : bool :=
  match x with
  | OneColumn s =>
      match dtype s with
      | datetime64 => true
      | _ => false
      end
  | SubFrame _ => false
  end.

(** [df[label]] where the code goes on to use the result as a series. *)
Definition column (df : DataFrame) (label : string) : Result Series :=
  let! sel := getitem df label in
  match sel with
  | OneColumn s => Return s
  | SubFrame _ => Raise NotModelled
  end.

(** [df.columns = names]: positional relabelling. *)
Definition set_columns (names : list string) (df : DataFrame) : DataFrame :=
  map (fun p => (fst p, snd (snd p))) (combine names df).

(** The rows of the frame, cell by cell. *)
Fixpoint row_at (i : nat) (df : DataFrame) : list Scalar :=
  match df with
  | [] => []
  | (_, s) :: rest =>
      match nth_error (values s) i with
      | Some v => v :: row_at i rest
      | None => row_at i rest
      end
  end.

Definition rows (df : DataFrame) : list (list Scalar) :=
  map (fun i => row_at i df) (seq 0 (nrows df)).

(** *** Aggregations *)

Fixpoint unique (l : list Scalar) : list Scalar :=
  match l with
  | [] => []
  | x :: r => if existsb (scalar_eqb x) r then unique r else x :: unique r
  end.

(** [s.nunique()] *)
Definition nunique (s : Series) : nat := length (unique (values s)).

Definition Qsum (l : list Q) : Q := fold_right Qplus 0%Q l.

(** [mean] of a list of numbers; pandas gives NaN on no number, the
    callers below never reach that case on an aligned, non-empty frame. *)
Definition Qmean (l : list Q) : Q := (Qsum l / inject_Z (Z.of_nat (length l)))%Q.

Fixpoint Qminimum (x : Q) (l : list Q) : Q :=
  match l with
  | [] => x
  | y :: r => Qminimum (if Qle_bool x y then x else y) r
  end.

Fixpoint Qmaximum (x : Q) (l : list Q) : Q :=
  match l with
  | [] => x
  | y :: r => Qmaximum (if Qle_bool x y then y else x) r
  end.

Definition Zmaximum (x : Z) (l : list Z) : Z := fold_left Z.max l x.
Definition Zminimum (x : Z) (l : list Z) : Z := fold_left Z.min l x.

(** The cells of a numeric column as numbers ([True] is 1). *)
Definition numbers (s : Series) : option (list Q) :=
  match s with
  | IntS l => Some (map inject_Z l)
  | FloatS l => Some l
  | BoolS l => Some (map (fun b : bool => if b then 1%Q else 0%Q) l)
  | DatetimeS _ | ObjectS _ => None
  end.

(** [df.groupby(key)[val].mean()]: one mean per distinct key. *)
Definition groupby_mean (keys : list Scalar) (vals : list Q) : list Q :=
  map (fun k => Qmean (map snd (List.filter (fun r => scalar_eqb (fst r) k)
                                       (combine keys vals))))
      (unique keys).

End Pandas.

(** ** SQL type inference *)

Inductive SqlType : Type := INTEGER | DECIMAL | TIMESTAMP | TEXT.

Definition infer_sql_type (col_series : Pandas.Selection) : SqlType :=
  if Pandas.is_numeric_dtype col_series then
    if Pandas.is_integer_dtype col_series then INTEGER else DECIMAL
  else if Pandas.is_datetime64_any_dtype col_series then TIMESTAMP
  else TEXT.

(** ** Number formatting *)

Module Fmt.

Definition decimal (z : Z) : string :=
  NilZero.string_of_uint (N.to_uint (Z.to_N z)).

(** A comma before every group of three digits, counted from the right. *)
Fixpoint group_thousands (digits : string) : string :=
  match digits with
  | EmptyString => EmptyString
  | String c r =>
      String c (if Nat.ltb 0 (String.length r)
                   && Nat.eqb (Nat.modulo (String.length r) 3) 0
                then String "," (group_thousands r)
                else group_thousands r)
  end.

Definition two_digits (z : Z) : string :=
  if (z <? 10)%Z then "0" ++ decimal z else decimal z.

(** The number of hundredths nearest to [|q|], ties to the even one. *)
Definition round_hundredths (q : Q) : Z :=
  let a := (Z.abs (Qnum q) * 100)%Z in
  let d := Z.pos (Qden q) in
  let k := (a / d)%Z in
  let r := (a mod d)%Z in
  if (2 * r <? d)%Z then k
  else if (d <? 2 * r)%Z then (k + 1)%Z
  else if Z.even k then k else (k + 1)%Z.

(** The format specification [,.2f]. *)
Definition format_2f (q : Q) : string :=
  let h := round_hundredths q in
  (if (Qnum q <? 0)%Z then "-" else "")
    ++ group_thousands (decimal (h / 100)) ++ "." ++ two_digits (h mod 100).

End Fmt.

(** ** Metrics engine *)

(** A value stored in a returned [dict]: a Python [int] or a [str]. *)
Inductive PyVal : Type :=
| PyInt (z : Z)
| PyStr (s : string).

(** Python's true division of two integers. *)
Definition py_truediv (a b : Z) : Result Q :=
  if (b =? 0)%Z then Raise ZeroDivisionError
  else Return (inject_Z a / inject_Z b)%Q.

(** Nanoseconds in a day; [pd.Timedelta(days=365)] is 365 of them. *)
Definition ns_per_day : Z := 86400 * 1000000000.

(** What [s.max() - s.min()] and [.days] need of the [purchase_date]
    column: datetime cells.  On integers or floats the difference is a
    number, which has no attribute [days]; booleans and strings cannot be
    subtracted. *)
Definition datetimes (s : Pandas.Series) : Result (list Z) :=
  match s with
  | Pandas.DatetimeS l => Return l
  | Pandas.IntS _ | Pandas.FloatS _ => Raise AttributeError
  | Pandas.BoolS _ | Pandas.ObjectS _ => Raise TypeError
  end.

(** [s.max()] and [s.min()] of a datetime column. *)
Definition latest (dates : list Z) : Result Z :=
  match dates with
  | [] => Raise NotModelled
  | d :: r => Return (Pandas.Zmaximum d r)
  end.

Definition earliest (dates : list Z) : Result Z :=
  match dates with
  | [] => Raise NotModelled
  | d :: r => Return (Pandas.Zminimum d r)
  end.

(** [df[df['purchase_date'] < cutoff]['customer_id'].nunique()] *)
Definition customers_before (cutoff : Z) (ids : list Pandas.Scalar)
    (dates : list Z) : nat :=
  length (Pandas.unique
            (map fst (List.filter (fun r => (snd r <? cutoff)%Z) (combine ids dates)))).

Definition get_key_metrics (df : Pandas.DataFrame) : Result (gmap string PyVal) :=
  if Pandas.empty df then
    Return {[ "LTV" := PyInt 0; "CAC" := PyInt 0; "Churn_Rate" := PyInt 0 ]}
  else
    let! ids := Pandas.column df "customer_id" in
    let total_customers := Z.of_nat (Pandas.nunique ids) in
    let! amount_col := Pandas.column df "purchase_amount" in
    (* sum() rejects datetimes, the grouped mean() rejects strings *)
    let! amounts := match Pandas.numbers amount_col with
                    | Some l => Return l
                    | None => Raise TypeError
                    end in
    let total_revenue := Pandas.Qsum amounts in
    let avg_purchase_value :=
      Pandas.Qmean (Pandas.groupby_mean (Pandas.values ids) amounts) in
    let! date_col := Pandas.column df "purchase_date" in
    let! dates := datetimes date_col in
    let! date_max := latest dates in
    let! date_min := earliest dates in
    let customer_lifespan_days := ((date_max - date_min) / ns_per_day)%Z in
    let! avg_purchases_per_customer :=
      py_truediv (Z.of_nat (Pandas.nrows df)) total_customers in
    let ltv := ((avg_purchase_value * avg_purchases_per_customer)
                * (inject_Z customer_lifespan_days / 365))%Q in
    (* new_customers, the first purchase of every customer, is computed
       here and never used *)
    let cac := (total_revenue / inject_Z total_customers)%Q in
    let latest_date := date_max in
    let churned_customers :=
      Z.of_nat (customers_before (latest_date - 365 * ns_per_day)
                                 (Pandas.values ids) dates) in
    let! churn_ratio := py_truediv churned_customers total_customers in
    let churn_rate := (churn_ratio * 100)%Q in
    Return {[ "LTV" := PyStr (Fmt.format_2f ltv);
              "CAC" := PyStr (Fmt.format_2f cac);
              "Churn_Rate" := PyStr (Fmt.format_2f churn_rate ++ "%") ]}.

(** [s.min()] and [s.max()] of a numeric column. *)
Definition smallest (l : list Q) : Result Q :=
  match l with
  | [] => Raise NotModelled
  | x :: r => Return (Pandas.Qminimum x r)
  end.

Definition largest (l : list Q) : Result Q :=
  match l with
  | [] => Raise NotModelled
  | x :: r => Return (Pandas.Qmaximum x r)
  end.

Definition get_business_insights (df : Pandas.DataFrame) : Result (gmap string PyVal) :=
  if Pandas.empty df then Return ∅
  else
    let insights : gmap string PyVal := ∅ in
    let! ids := Pandas.column df "customer_id" in
    let total_customers := Z.of_nat (Pandas.nunique ids) in
    let insights := <["Total_Customers" := PyInt total_customers]> insights in
    let! amount_col := Pandas.column df "purchase_amount" in
    (* sum() rejects datetimes; the sum of strings is a string, which the
       format specification rejects *)
    let! amounts := match amount_col with
                    | Pandas.DatetimeS _ => Raise TypeError
                    | Pandas.ObjectS _ => Raise ValueError
                    | _ => match Pandas.numbers amount_col with
                           | Some l => Return l
                           | None => Raise TypeError
                           end
                    end in
    let total_revenue := Pandas.Qsum amounts in
    let insights := <["Total_Revenue" := PyStr (Fmt.format_2f total_revenue)]> insights in
    let avg_purchase_amount := Pandas.Qmean amounts in
    let insights :=
      <["Average_Purchase_Amount" := PyStr (Fmt.format_2f avg_purchase_amount)]> insights in
    let! min_purchase := smallest amounts in
    let! max_purchase := largest amounts in
    let insights := <["Min_Purchase" := PyStr (Fmt.format_2f min_purchase)]> insights in
    let insights := <["Max_Purchase" := PyStr (Fmt.format_2f max_purchase)]> insights in
    Return insights.

(** ** PostgreSQL through psycopg2 *)

Module Pg.

(** A stored column: its SQL type together with its cells. *)
Inductive Column : Type :=
| IntegerC (cells : list Z)
| DecimalC (cells : list Q)
| TimestampC (cells : list Z)
| TextC (cells : list string).

Definition Table : Type := list (string * Column).

Definition empty_column (ty : SqlType) : Column :=
  match ty with
  | INTEGER => IntegerC []
  | DECIMAL => DecimalC []
  | TIMESTAMP => TimestampC []
  | TEXT => TextC []
  end.

Definition column_type (c : Column) : SqlType :=
  match c with
  | IntegerC _ => INTEGER
  | DecimalC _ => DECIMAL
  | TimestampC _ => TIMESTAMP
  | TextC _ => TEXT
  end.

Definition column_length (c : Column) : nat :=
  match c with
  | IntegerC l => length l
  | DecimalC l => length l
  | TimestampC l => length l
  | TextC l => length l
  end.

Definition truncate_column (c : Column) : Column := empty_column (column_type c).

Definition row_count (t : Table) : nat :=
  match t with
  | [] => 0
  | (_, c) :: _ => column_length c
  end.


Definition new_table (defs : list (string * SqlType)) : Table :=
  map (fun d => (fst d, empty_column (snd d))) defs.

(** The statements of the modelled fragment of SQL. *)
Inductive Stmt : Type :=
| DropTableIfExists (name : string)
| CreateTable (name : string) (defs : list (string * SqlType))
| SelectAll (name : string)
| DeleteFrom (name : string)
| Commit
| Rollback.

(** A query text is represented by what the server parses it into: a
    script of statements, or nothing when it is not well-formed SQL. *)
Inductive Query : Type :=
| Unparsable
| Script (stmts : list Stmt).

(** What the embedding leaves to the server: whether it can be reached,
    its reserved key words, and what COPY makes of a serialised text
    cell (the stored text, or a rejected row). *)
Record Server : Type := {
  reachable : bool;
  reserved : string -> bool;
  text_in : string -> option string
}.

Abbreviation Store := (gmap string Table).

(** A psycopg2 connection outside autocommit: the committed store, this
    session's view of it with its uncommitted changes, and every store
    the session has committed so far, latest first. *)
Record Session : Type := {
  committed : Store;
  view : Store;
  history : list Store
}.

Definition connect (db : Store) : Session :=
  {| committed := db; view := db; history := [] |}.

(** [conn.commit()] *)
Definition commit (s : Session) : Session :=
  {| committed := view s; view := view s; history := view s :: history s |}.

(** [conn.rollback()] *)
Definition rollback (s : Session) : Session :=
  {| committed := committed s; view := committed s; history := history s |}.

(** [conn.close()]: what is not committed is lost. *)
Definition close (s : Session) : Store := committed s.

Definition with_view (v : Store) (s : Session) : Session :=
  {| committed := committed s; view := v; history := history s |}.

(** An unquoted identifier: not empty, not starting with a digit, not a
    reserved word.  (The names that reach it are sanitized.) *)
Definition unquoted_ok (srv : Server) (name : string) : bool :=
  match name with
  | EmptyString => false
  | String c _ => negb (PyStr.in_range 48 57 c) && negb (reserved srv name)
  end.

(** A quoted identifier must not be empty between its quotes. *)
Definition quoted_ok (ident : string) : bool :=
  negb (String.eqb (PyStr.strip_char PyStr.dquote ident) "").

Fixpoint has_duplicates (l : list string) : bool :=
  match l with
  | [] => false
  | x :: r => existsb (String.eqb x) r || has_duplicates r
  end.

(** One statement: its result set, if it has one, and the session after
    it. *)
Definition exec_stmt (stmt : Stmt) (s : Session) : Result (option Table) * Session :=
  match stmt with
  | DropTableIfExists n => (Return None, with_view (delete n (view s)) s)
  | CreateTable n defs =>
      match view s !! n with
      | Some _ => (Raise DatabaseError, s)
      | None =>
          if has_duplicates (map fst defs) then (Raise DatabaseError, s)
          else (Return None, with_view (<[n := new_table defs]> (view s)) s)
      end
  | SelectAll n =>
      match view s !! n with
      | Some t => (Return (Some t), s)
      | None => (Raise DatabaseError, s)
      end
  | DeleteFrom n =>
      match view s !! n with
      | Some t =>
          (Return None,
           with_view (<[n := map (fun c => (fst c, truncate_column (snd c))) t]> (view s)) s)
      | None => (Raise DatabaseError, s)
      end
  | Commit => (Return None, commit s)
  | Rollback => (Return None, rollback s)
  end.

(** The statements of a script run in order up to the first error; the
    result set is that of the last statement. *)
Fixpoint exec_script (stmts : list Stmt) (last : option Table) (s : Session)
  : Result (option Table) * Session :=
  match stmts with
  | [] => (Return last, s)
  | stmt :: rest =>
      match exec_stmt stmt s with
      | (Return r, s') => exec_script rest r s'
      | (Raise e, s') => (Raise e, s')
      end
  end.

(** [cursor.execute(query)] *)
Definition execute (q : Query) (s : Session) : Result (option Table) * Session :=
  match q with
  | Unparsable | Script [] => (Raise DatabaseError, s)
  | Script stmts => exec_script stmts None s
  end.

(** COPY converts one cell for the column it goes to: INTEGER is 32 bits
    wide, DECIMAL does not read a boolean, TEXT is read by the server's
    [text_in]. *)
Definition append_cell (srv : Server) (c : Column) (v : Pandas.Scalar) : option Column :=
  match c, v with
  | IntegerC l, Pandas.SInt z =>
      if ((- 2147483648 <=? z) && (z <=? 2147483647))%Z
      then Some (IntegerC (l ++ [z])) else None
  | DecimalC l, Pandas.SInt z => Some (DecimalC (l ++ [inject_Z z]))
  | DecimalC l, Pandas.SFloat q => Some (DecimalC (l ++ [q]))
  | TimestampC l, Pandas.STime t => Some (TimestampC (l ++ [t]))
  | TextC l, Pandas.SStr x =>
      match text_in srv x with
      | Some y => Some (TextC (l ++ [y]))
      | None => None
      end
  | _, _ => None
  end.

(** A row goes in when it has one cell per column and every cell
    converts. *)
Fixpoint append_row (srv : Server) (t : Table) (row : list Pandas.Scalar) : option Table :=
  match t, row with
  | [], [] => Some []
  | (n, c) :: t', v :: row' =>
      match append_cell srv c v, append_row srv t' row' with
      | Some c', Some t'' => Some ((n, c') :: t'')
      | _, _ => None
      end
  | _, _ => None
  end.

(** The rows go in one by one; at the first that does not, the command
    fails and leaves in the session's view the rows before it. *)
Fixpoint copy_rows (srv : Server) (t : Table) (rows : list (list Pandas.Scalar))
  : Result unit * Table :=
  match rows with
  | [] => (Return tt, t)
  | row :: rest =>
      match append_row srv t row with
      | Some t' => copy_rows srv t' rest
      | None => (Raise DatabaseError, t)
      end
  end.

(** [cursor.copy_from(buffer, name, sep)] *)
Definition copy_from (srv : Server) (rows : list (list Pandas.Scalar)) (name : string)
    (s : Session) : Result unit * Session :=
  match view s !! name with
  | None => (Raise DatabaseError, s)
  | Some t =>
      let '(r, t') := copy_rows srv t rows in
      (r, with_view (<[name := t']> (view s)) s)
  end.

(** The frame [pd.read_sql] builds from a result set; without rows every
    column is of dtype object. *)
Definition series_of_column (c : Column) : Pandas.Series :=
  match c with
  | IntegerC l => Pandas.IntS l
  | DecimalC l => Pandas.FloatS l
  | TimestampC l => Pandas.DatetimeS l
  | TextC l => Pandas.ObjectS l
  end.

Definition frame_of_table (t : Table) : Pandas.DataFrame :=
  if Nat.eqb (row_count t) 0
  then map (fun c => (fst c, Pandas.ObjectS [])) t
  else map (fun c => (fst c, series_of_column (snd c))) t.

(** [pd.read_sql(query, conn)]: a query whose last statement has no
    result set makes pandas fail on the missing description; after a
    failed execution pandas rolls back before raising. *)
Definition read_sql (q : Query) (s : Session) : Result Pandas.DataFrame * Session :=
  match execute q s with
  | (Return (Some t), s') => (Return (frame_of_table t), s')
  | (Return None, s') => (Raise TypeError, s')
  | (Raise _, s') => (Raise DatabaseError, rollback s')
  end.

End Pg.

(** ** The SQL texts the backend builds *)

(** Each f-string is represented by the script the server parses it into.
    The table name is interpolated bare, a column name between double
    quotes. *)

Definition drop_table_query (srv : Pg.Server) (name : string) : Pg.Query :=
  if Pg.unquoted_ok srv name then Pg.Script [Pg.DropTableIfExists name]
  else Pg.Unparsable.

Definition create_table_query (srv : Pg.Server) (name : string)
    (schema_sql : list (string * SqlType)) : Pg.Query :=
  if Pg.unquoted_ok srv name && forallb (fun d => Pg.quoted_ok (fst d)) schema_sql
  then Pg.Script
         [Pg.CreateTable name
            (map (fun d => (PyStr.strip_char PyStr.dquote (fst d), snd d)) schema_sql)]
  else Pg.Unparsable.

Definition select_all_query (srv : Pg.Server) (name : string) : Pg.Query :=
  if Pg.unquoted_ok srv name then Pg.Script [Pg.SelectAll name]
  else Pg.Unparsable.

(** ** Connection *)

(** [get_db_connection]: a session on the database, or [None] when
    psycopg2 raises its OperationalError. *)
Definition get_db_connection (srv : Pg.Server) (db : Pg.Store) : option Pg.Session :=
  if Pg.reachable srv then Some (Pg.connect db) else None.

(** ** Ingestion *)

(** What the body of [ingest_csv_data] reads and writes: the caller's
    frame, which it relabels in place, and the connection. *)
Record IngestState : Type := {
  caller_df : Pandas.DataFrame;
  conn : Pg.Session
}.

Definition Prog (A : Type) : Type := IngestState -> Result A * IngestState.

Definition retP {A : Type} (a : A) : Prog A := fun st => (Return a, st).

Definition bindP {A B : Type} (m : Prog A) (k : A -> Prog B) : Prog B :=
  fun st =>
    match m st with
    | (Return a, st') => k a st'
    | (Raise e, st') => (Raise e, st')
    end.

Notation "'do!' x ':=' m 'in' k" := (bindP m (fun x => k))
  (at level 10, x name, m at level 100, k at level 200).

Definition lift {A : Type} (r : Result A) : Prog A := fun st => (r, st).

Definition on_conn {A : Type} (f : Pg.Session -> Result A * Pg.Session) : Prog A :=
  fun st =>
    let '(r, c) := f (conn st) in
    (r, {| caller_df := caller_df st; conn := c |}).

Definition conn_commit : Prog unit := on_conn (fun c => (Return tt, Pg.commit c)).

Definition read_df : Prog Pandas.DataFrame := fun st => (Return (caller_df st), st).

(** [df.columns = names] *)
Definition assign_columns (names : list string) : Prog unit :=
  fun st =>
    (Return tt,
     {| caller_df := Pandas.set_columns names (caller_df st); conn := conn st |}).

(** The loop that fills [schema_sql]: one definition per label, typed from
    what [df[col]] selects. *)
Fixpoint schema_of (df : Pandas.DataFrame) (cols : list string)
  : Result (list (string * SqlType)) :=
  match cols with
  | [] => Return []
  | col :: rest =>
      let! sel := Pandas.getitem df col in
      let! defs := schema_of df rest in
      Return ((col, infer_sql_type sel) :: defs)
  end.

(** The [try] block of [ingest_csv_data]. *)
Definition ingest_try (srv : Pg.Server) (table_name : string) : Prog bool :=
  let sanitized_table_name := sanitized_name table_name in
  do! _ := on_conn (Pg.execute (drop_table_query srv sanitized_table_name)) in
  do! _ := conn_commit in
  do! df := read_df in
  do! _ := assign_columns (map sanitize_column_name (Pandas.labels df)) in
  do! df := read_df in
  do! schema_sql := lift (schema_of df (Pandas.labels df)) in
  do! _ := on_conn (Pg.execute (create_table_query srv sanitized_table_name schema_sql)) in
  do! _ := conn_commit in
  do! df := read_df in
  do! _ := assign_columns (map (PyStr.strip_char PyStr.dquote) (Pandas.labels df)) in
  do! df := read_df in
  let buffer := Pandas.rows df in
  do! _ := on_conn (Pg.copy_from srv buffer sanitized_table_name) in
  do! _ := conn_commit in
  retP true.

(** What a call leaves behind: its result, the caller's frame, the
    database, and the stores it committed on the way, latest first. *)
Record Outcome : Type := {
  result : Result bool;
  df_after : Pandas.DataFrame;
  db_after : Pg.Store;
  commits : list Pg.Store
}.

Definition ingest_csv_data (srv : Pg.Server) (db : Pg.Store) (df : Pandas.DataFrame)
    (table_name : string) : Outcome :=
  match get_db_connection srv db with
  | None => {| result := Return false; df_after := df; db_after := db; commits := [] |}
  | Some c =>
      match ingest_try srv table_name {| caller_df := df; conn := c |} with
      | (Return b, st) =>
          {| result := Return b; df_after := caller_df st;
             db_after := Pg.close (conn st); commits := Pg.history (conn st) |}
      | (Raise _, st) =>
          let c' := Pg.rollback (conn st) in
          {| result := Return false; df_after := caller_df st;
             db_after := Pg.close c'; commits := Pg.history c' |}
      end
  end.

(** ** Retrieval *)

(** [pd.DataFrame()] *)
Definition empty_frame : Pandas.DataFrame := [].

Definition get_all_data (srv : Pg.Server) (db : Pg.Store) (table_name : string)
  : Result Pandas.DataFrame * Pg.Store :=
  match get_db_connection srv db with
  | None => (Return empty_frame, db)
  | Some c =>
      let sanitized_table_name := sanitized_name table_name in
      let query := select_all_query srv sanitized_table_name in
      match Pg.read_sql query c with
      | (Return df, c') => (Return df, Pg.close c')
      | (Raise _, c') => (Return empty_frame, Pg.close c')
      end
  end.


(** ** Reference definitions, in the words of the specification *)

Module Spec.

Import Pandas.






(** The churn count of the specification: the distinct customers whose
    most recent purchase is more than 365 days before [latest_date]. *)
Definition purchases_of (c : Scalar) (ids : list Scalar) (dates : list Z) : list Z :=
  map snd (List.filter (fun r => scalar_eqb (fst r) c) (combine ids dates)).

Definition churned_by_recency (latest_date : Z) (ids : list Scalar) (dates : list Z)
  : nat :=
  length
    (List.filter
       (fun c => match purchases_of c ids dates with
                 | [] => false
                 | d :: r => (Zmaximum d r <? latest_date - 365 * ns_per_day)%Z
                 end)
       (unique ids)).

(** The columns the metrics engine requires. *)
Definition required_columns : list string :=
  ["customer_id"; "purchase_amount"; "purchase_date"].

End Spec.

(** ** Ingestion: what the statements are built from *)

(** A frame with every label replaced by its image under [f]. *)
Definition relabel (f : string -> string) (df : Pandas.DataFrame) : Pandas.DataFrame :=
  map (fun c => (f (fst c), snd c)) df.

(** The column definitions of the table to create: the sanitized names
    with the types inferred from the columns. *)
Definition column_defs (df : Pandas.DataFrame) : list (string * SqlType) :=
  map (fun c => (sanitize_core (fst c), infer_sql_type (Pandas.OneColumn (snd c)))) df.

(** The sanitized names are not empty and differ from one another, which
    is what CREATE TABLE asks of them. *)
Definition creatable (df : Pandas.DataFrame) : bool :=
  forallb (fun n => negb (String.eqb n "")) (map sanitize_core (Pandas.labels df))
  && negb (Pg.has_duplicates (map sanitize_core (Pandas.labels df))).



(** ** Preconditions and intermediate states named by the theorems *)

Module Pre.

Import Pandas.

(** The frame has the three required columns, each once, with a numeric
    [purchase_amount] and a datetime [purchase_date], and every column
    is as long as the index. *)
Record metrics_ready (df : DataFrame) (ids : Series) (amounts : list Q) (dates : list Z)
  : Prop := {
  ready_rows : Pandas.empty df = false;
  ready_aligned : aligned df;
  ready_ids : column df "customer_id" = Return ids;
  ready_amounts :
    exists amount_col,
      column df "purchase_amount" = Return amount_col
      /\ numbers amount_col = Some amounts;
  ready_dates : column df "purchase_date" = Return (DatetimeS dates)
}.

(** The connection after the drop has been committed, and after the
    table has been created and committed. *)
Definition after_drop (db : Pg.Store) (name : string) : Pg.Session :=
  Pg.commit (Pg.with_view (delete name db) (Pg.connect db)).

Definition after_create (db : Pg.Store) (name : string) (df : DataFrame) : Pg.Session :=
  Pg.commit (Pg.with_view (<[name := Pg.new_table (column_defs df)]> (delete name db))
                          (after_drop db name)).

End Pre.

(** ** The load, column by column *)

Module Load.

Import Pandas.





End Load.

(** ** The dashboard page of the frontend *)

Module Frontend.

Import Pandas.

(** [label in df.columns] *)
Definition has_column (df : DataFrame) (label : string) : bool :=
  existsb (String.eqb label) (labels df).

Fixpoint parse_all (parse : string -> option Z) (l : list string) : option (list Z) :=
  match l with
  | [] => Some []
  | x :: r =>
      match parse x, parse_all parse r with
      | Some d, Some ds => Some (d :: ds)
      | _, _ => None
      end
  end.

(** [pd.to_datetime] of what [df[label]] selects.  [parse] stands for the
    date parser of pandas: the instant it reads in a string, if any.
    Integers are nanoseconds since the epoch; a string that is no date,
    or a selection of several columns, is a ValueError; booleans are a
    TypeError.  The rounding of floats is not modelled. *)
Definition to_datetime (parse : string -> option Z) (sel : Selection) : Result Series :=
  match sel with
  | OneColumn (DatetimeS l) => Return (DatetimeS l)
  | OneColumn (IntS l) => Return (DatetimeS l)
  | OneColumn (ObjectS l) =>
      match parse_all parse l with
      | Some ds => Return (DatetimeS ds)
      | None => Raise ValueError
      end
  | OneColumn (BoolS _) => Raise TypeError
  | OneColumn (FloatS _) => Raise NotModelled
  | SubFrame _ => Raise ValueError
  end.

(** [df[label] = s] for a label of the frame. *)
Definition setitem (df : DataFrame) (label : string) (s : Series) : DataFrame :=
  map (fun c => if String.eqb (fst c) label then (fst c, s) else c) df.

(** The body of [get_cached_data], as it runs when the cache of
    streamlit holds no entry: the table [customer_data] with its
    [purchase_date] column, if it has one, converted to datetimes. *)
Definition get_cached_data (parse : string -> option Z) (srv : Pg.Server) (db : Pg.Store)
  : Result DataFrame :=
  let! df := fst (get_all_data srv db "customer_data") in
  if has_column df "purchase_date" then
    let! sel := getitem df "purchase_date" in
    let! dates := to_datetime parse sel in
    Return (setitem df "purchase_date" dates)
  else Return df.

(** What the section of the key metrics puts on the page. *)
Inductive MetricsSection : Type :=
| NoDataWarning
| MetricCards (ltv cac churn_rate : option PyVal)
| MissingColumnsError.

(** The page from [df_data] on: a warning on an empty frame; else the
    three metric cards, or the error message when [get_key_metrics]
    raises a KeyError.  Any other exception leaves the script. *)
Definition metrics_section (df_data : DataFrame) : Result MetricsSection :=
  if Pandas.empty df_data then Return NoDataWarning
  else
    match get_key_metrics df_data with
    | Return metrics =>
        Return (MetricCards (metrics !! "LTV") (metrics !! "CAC")
                            (metrics !! "Churn_Rate"))
    | Raise (KeyError _) => Return MissingColumnsError
    | Raise e => Raise e
    end.

Definition dashboard (parse : string -> option Z) (srv : Pg.Server) (db : Pg.Store)
  : Result MetricsSection :=
  let! df_data := get_cached_data parse srv db in
  metrics_section df_data.

End Frontend.

(** ** Sample frames *)

Module Sample.

Import Pandas.

Definition day (n : Z) : Z := n * ns_per_day.

(** One customer, purchases of 100 and 200 thirty days apart. *)
Definition one_customer : DataFrame :=
  [ ("customer_id", IntS [7; 7]%Z);
    ("purchase_date", DatetimeS [day 0; day 30]);
    ("purchase_amount", IntS [100; 200]%Z) ].

(** One customer who bought on day 0 and again on day 400. *)
Definition returning_customer : DataFrame :=
  [ ("customer_id", ObjectS ["ada"; "ada"]);
    ("purchase_date", DatetimeS [day 0; day 400]);
    ("purchase_amount", FloatS [10 # 1; 20 # 1]) ].

(** Three customers, purchases of 10, 20 and 30. *)
Definition three_purchases : DataFrame :=
  [ ("customer_id", IntS [1; 2; 3]%Z);
    ("purchase_amount", IntS [10; 20; 30]%Z) ].

(** Amounts kept as text, and no purchase date. *)
Definition text_amounts_no_date : DataFrame :=
  [ ("customer_id", IntS [1]%Z);
    ("purchase_amount", ObjectS ["$12.50"]) ].

(** No purchase amount. *)
Definition no_amount : DataFrame :=
  [ ("customer_id", IntS [1]%Z);
    ("purchase_date", DatetimeS [day 0]) ].

(** Headers, but no row. *)
Definition no_rows : DataFrame :=
  [ ("customer_id", ObjectS []);
    ("purchase_date", ObjectS []);
    ("purchase_amount", ObjectS []) ].

(** An upload as [read_csv] hands it over, with its raw headers and its
    dates as text; the second amount does not fit the 32 bits of an
    INTEGER column. *)
Definition upload : DataFrame :=
  [ ("Customer ID", IntS [7; 8]%Z);
    ("Purchase Date", ObjectS ["2024-01-01"; "2024-01-31"]);
    ("Purchase Amount!", IntS [100; 3000000000]%Z) ].

(** Two headers that sanitize to the same name. *)
Definition clashing_headers : DataFrame :=
  [ ("Amount", IntS [1]%Z);
    ("amount!", IntS [2]%Z) ].

Definition online : Pg.Server :=
  {| Pg.reachable := true;
     Pg.reserved := fun n => String.eqb n "user" || String.eqb n "table";
     Pg.text_in := fun x => Some x |}.


(** A database that holds one customer table with one row. *)
Definition stored : Pg.Store :=
  {[ "customer_data" :=
       [ ("customer_id", Pg.IntegerC [7]%Z);
         ("purchase_amount", Pg.DecimalC [25 # 2]) ] ]}.

End Sample.

(** ** The insight panels of the dashboard *)

Module Panels.

Import Pandas Frontend.

(** *** Minimum and maximum purchase *)

Inductive MinMaxSection : Type :=
| MinMaxInfo (minimum maximum : string)
| MinMaxWarning.

(** The two f-strings of the panel.  The minimum of a numeric column is
    a number; that of a datetime column is a timestamp, whose format
    method takes the specification for a strftime pattern and gives it
    back as it is; that of a text column is a string, which rejects the
    specification; that of a selection of several columns is a series,
    which rejects it too. *)
Definition min_max_section (df_data : DataFrame) : Result MinMaxSection :=
  if has_column df_data "purchase_amount" then
    let! sel := getitem df_data "purchase_amount" in
    match sel with
    | SubFrame _ => Raise TypeError
    | OneColumn (ObjectS []) | OneColumn (DatetimeS []) => Raise NotModelled
    | OneColumn (ObjectS _) => Raise ValueError
    | OneColumn (DatetimeS _) =>
        Return (MinMaxInfo "**Minimum Purchase:** $,.2f" "**Maximum Purchase:** $,.2f")
    | OneColumn s =>
        let! amounts := match numbers s with
                        | Some l => Return l
                        | None => Raise TypeError
                        end in
        let! min_val := smallest amounts in
        let! max_val := largest amounts in
        Return (MinMaxInfo ("**Minimum Purchase:** $" ++ Fmt.format_2f min_val)
                           ("**Maximum Purchase:** $" ++ Fmt.format_2f max_val))
    end
  else Return MinMaxWarning.

(** *** Total revenue by region *)












End Panels.

(** ** Samples for the pages *)

Module Demo.

Import Pandas.

(** A stand-in for the date parser, which knows two ISO dates. *)
Definition parse_date (x : string) : option Z :=
  if String.eqb x "2024-01-01" then Some (Sample.day 19723)
  else if String.eqb x "2024-01-31" then Some (Sample.day 19753)
  else None.

(** A csv as [read_csv] hands it over: raw headers, dates as text. *)
Definition csv : DataFrame :=
  [ ("Customer ID", IntS [7; 8]%Z);
    ("Purchase Date", ObjectS ["2024-01-01"; "2024-01-31"]);
    ("Purchase Amount", FloatS [25 # 2; 75 # 2]) ].


End Demo.

(* ================================================================== *)
(** * Properties *)

(** ** Identifier sanitizer *)

Section Sanitizer.

Import PyStr.

Lemma filter_chars_all (p : ascii -> bool) (s : string) :
  all_chars p (filter_chars p s) = true.
Proof.
  induction s as [|c r IH]; simpl; [reflexivity|].
  destruct (p c) eqn:Hc; simpl; [rewrite Hc|]; exact IH.
Qed.

Lemma filter_chars_id (p : ascii -> bool) (s : string) :
  all_chars p s = true -> filter_chars p s = s.
Proof.
  induction s as [|c r IH]; simpl; [reflexivity|].
  intros [Hc Hr]%andb_prop. rewrite Hc, (IH Hr). reflexivity.
Qed.

Lemma map_chars_id (p : ascii -> bool) (f : ascii -> ascii) (s : string) :
  (forall c, p c = true -> f c = c) ->
  all_chars p s = true -> map_chars f s = s.
Proof.
  intros Hf. induction s as [|c r IH]; simpl; [reflexivity|].
  intros [Hc Hr]%andb_prop. rewrite (Hf c Hc), (IH Hr). reflexivity.
Qed.

Lemma lower_char_ident (c : ascii) : is_ident_char c = true -> lower_char c = c.
Proof.
  destruct c as [[] [] [] [] [] [] [] []]; vm_compute;
    solve [reflexivity | discriminate].
Qed.

Lemma space_not_ident (c : ascii) :
  is_ident_char c = true -> (if Ascii.eqb c " " then "_"%char else c) = c.
Proof.
  destruct c as [[] [] [] [] [] [] [] []]; vm_compute;
    solve [reflexivity | discriminate].
Qed.

Lemma dquote_not_ident (c : ascii) :
  is_ident_char c = true -> Ascii.eqb c dquote = false.
Proof.
  destruct c as [[] [] [] [] [] [] [] []]; vm_compute;
    solve [reflexivity | discriminate].
Qed.

Lemma rstrip_closing_quote (s : string) :
  all_chars is_ident_char s = true ->
  rstrip_char dquote (s ++ String dquote EmptyString) = s.
Proof.
  induction s as [|c r IH]; [reflexivity|].
  intros [Hc Hr]%andb_prop.
  change (String c r ++ String dquote "")%string
    with (String c (r ++ String dquote "")%string).
  cbn [rstrip_char]. rewrite (IH Hr), (dquote_not_ident c Hc).
  destruct r; reflexivity.
Qed.

Lemma strip_quoted (s : string) :
  all_chars is_ident_char s = true -> strip_char dquote (quoted s) = s.
Proof.
  intros Hs. unfold strip_char, quoted.
  cbn [lstrip_char]. rewrite Ascii.eqb_refl.
  destruct s as [|c r]; [reflexivity|].
  pose proof Hs as [Hc _]%andb_prop.
  change (String c r ++ String dquote "")%string
    with (String c (r ++ String dquote "")%string).
  cbn [lstrip_char]. rewrite (dquote_not_ident c Hc).
  apply (rstrip_closing_quote (String c r) Hs).
Qed.

Lemma sanitize_core_ident (s : string) :
  all_chars is_ident_char (sanitize_core s) = true.
Proof. apply filter_chars_all. Qed.

Lemma sanitize_core_id (s : string) :
  all_chars is_ident_char s = true -> sanitize_core s = s.
Proof.
  intros Hs. unfold sanitize_core, re_sub_non_ident, replace_char, lower.
  rewrite (map_chars_id is_ident_char lower_char s lower_char_ident Hs).
  rewrite (map_chars_id is_ident_char _ s space_not_ident Hs).
  apply filter_chars_id, Hs.
Qed.

Lemma sanitized_name_core (s : string) : sanitized_name s = sanitize_core s.
Proof. apply strip_quoted, sanitize_core_ident. Qed.

(** C2, as stated, fails: the returned string is wrapped in double
    quotes, which are outside [[a-z0-9_]], and so differs from a valid
    input. *)
Lemma sanitize_column_name_returns_quotes :
  all_chars is_ident_char (sanitize_column_name "abc") = false
  /\ sanitize_column_name "abc" <> "abc".
Proof. split; [reflexivity | discriminate]. Qed.

(** C2, amended: the returned string is the sanitized name between two
    double quotes; the name between them holds only [[a-z0-9_]], it is
    what stripping the quotes gives back, and it is the input itself
    when the input holds only [[a-z0-9_]]. *)
Theorem sanitize_column_name_quoted_ident (s : string) :
  sanitize_column_name s = quoted (sanitize_core s)
  /\ all_chars is_ident_char (sanitize_core s) = true
  /\ strip_char dquote (sanitize_column_name s) = sanitize_core s
  /\ (all_chars is_ident_char s = true -> sanitize_core s = s).
Proof.
  split; [reflexivity|]. split; [apply sanitize_core_ident|].
  split; [apply sanitized_name_core | apply sanitize_core_id].
Qed.

Lemma sanitize_column_name_quoted_ident_witness :
  strip_char dquote (sanitize_column_name "customer_id") = "customer_id".
Proof.
  destruct (sanitize_column_name_quoted_ident "customer_id") as (_ & _ & Hs & Hid).
  rewrite Hs. apply Hid. reflexivity.
Defined.

End Sanitizer.

(** ** SQL type inference *)

Section TypeInference.

Import Pandas.










End TypeInference.

(** ** Metrics engine *)

Section Metrics.

Import Pandas Pre.

Lemma selected_In (df : DataFrame) (label : string) (s : Series) :
  In s (selected df label) -> In (label, s) df.
Proof.
  unfold selected. intros [[l s'] [Hs Hin]]%in_map_iff.
  apply filter_In in Hin as [Hin Heq]. simpl in *.
  apply String.eqb_eq in Heq. subst. exact Hin.
Qed.

Lemma column_In (df : DataFrame) (label : string) (s : Series) :
  column df label = Return s -> In (label, s) df.
Proof.
  unfold column, getitem. intros H. apply selected_In.
  destruct (selected df label) as [|s0 [|s1 r]]; simpl in H; try discriminate.
  injection H as ->. left. reflexivity.
Qed.

Lemma column_size (df : DataFrame) (label : string) (s : Series) :
  aligned df -> column df label = Return s -> size s = nrows df.
Proof.
  intros Hal Hc. unfold aligned in Hal. rewrite List.Forall_forall in Hal.
  apply (Hal (label, s)), column_In, Hc.
Qed.

Lemma nonempty_nrows (df : DataFrame) : Pandas.empty df = false -> nrows df <> 0%nat.
Proof.
  destruct df as [|[l s] r]; [discriminate|]. unfold Pandas.empty.
  intros H. apply Nat.eqb_neq in H. exact H.
Qed.


Lemma unique_nonempty (l : list Scalar) : l <> [] -> unique l <> [].
Proof.
  induction l as [|x r IH]; [contradiction|]. intros _. simpl.
  destruct (existsb (scalar_eqb x) r) eqn:He; [|discriminate].
  apply IH. intros ->. discriminate.
Qed.

Lemma nunique_pos (s : Series) : size s <> 0%nat -> (0 < Z.of_nat (nunique s))%Z.
Proof.
  unfold size, nunique. intros Hs.
  assert (Hne : values s <> []) by (intros E; rewrite E in Hs; apply Hs; reflexivity).
  apply unique_nonempty in Hne. destruct (unique (values s)); [contradiction|].
  simpl length. lia.
Qed.

Lemma py_truediv_nonzero (a b : Z) :
  b <> 0%Z -> py_truediv a b = Return (inject_Z a / inject_Z b)%Q.
Proof. intros Hb. unfold py_truediv. apply Z.eqb_neq in Hb. rewrite Hb. reflexivity. Qed.

Lemma key_metrics_value (df : DataFrame) (ids : Series) (amounts : list Q)
    (dates : list Z) :
  metrics_ready df ids amounts dates ->
  exists (date_max date_min : Z),
    latest dates = Return date_max
    /\ earliest dates = Return date_min
    /\ get_key_metrics df =
       Return
         {[ "LTV" :=
              PyStr (Fmt.format_2f
                       ((Qmean (groupby_mean (values ids) amounts)
                         * (inject_Z (Z.of_nat (nrows df))
                            / inject_Z (Z.of_nat (nunique ids))))
                        * (inject_Z ((date_max - date_min) / ns_per_day) / 365))%Q);
            "CAC" :=
              PyStr (Fmt.format_2f
                       (Qsum amounts / inject_Z (Z.of_nat (nunique ids)))%Q);
            "Churn_Rate" :=
              PyStr (Fmt.format_2f
                       (inject_Z (Z.of_nat
                                    (customers_before (date_max - 365 * ns_per_day)
                                                      (values ids) dates))
                        / inject_Z (Z.of_nat (nunique ids)) * 100)%Q ++ "%") ]}.
Proof.
  intros [Hrows Hal Hids (amount_col & Hamt & Hnum) Hdates].
  pose proof (nonempty_nrows df Hrows) as Hn.
  assert (Hpos : (0 < Z.of_nat (nunique ids))%Z).
  { apply nunique_pos. rewrite (column_size df _ ids Hal Hids). exact Hn. }
  assert (Hd : dates <> []).
  { pose proof (column_size df _ _ Hal Hdates) as Hsz.
    unfold size in Hsz. simpl in Hsz. rewrite length_map in Hsz.
    intros ->. apply Hn. symmetry. exact Hsz. }
  destruct dates as [|d0 dr]; [contradiction|].
  exists (Zmaximum d0 dr), (Zminimum d0 dr).
  split; [reflexivity|]. split; [reflexivity|].
  unfold get_key_metrics. rewrite Hrows, Hids. cbn [bind].
  rewrite Hamt. cbn [bind]. rewrite Hnum. cbn [bind].
  rewrite Hdates. cbn [bind datetimes latest earliest].
  rewrite !py_truediv_nonzero by lia. cbn [bind]. reflexivity.
Qed.

Lemma metrics_ready_one_customer :
  metrics_ready Sample.one_customer (IntS [7; 7]%Z) [100 # 1; 200 # 1]
                [Sample.day 0; Sample.day 30].
Proof.
  split; try reflexivity.
  - repeat constructor.
  - exists (IntS [100; 200]%Z). split; reflexivity.
Defined.



(** C4, as stated, fails: on the empty frame the three values are the
    integer 0, not zero in the format of the other branch. *)
Lemma empty_metrics_are_plain_zeros :
  Fmt.format_2f 0 = "0.00"
  /\ get_key_metrics empty_frame
     <> Return {[ "LTV" := PyStr "0.00"; "CAC" := PyStr "0.00";
                  "Churn_Rate" := PyStr "0.00%" ]}.
Proof.
  split; [reflexivity|]. intros H.
  apply (f_equal (fun r : Result (gmap string PyVal) =>
                    match r with
                    | Return m => m !! "LTV"
                    | Raise _ => None
                    end)) in H.
  vm_compute in H. discriminate H.
Qed.

(** C4, amended: on an empty frame [get_key_metrics] raises nothing and
    returns the integer 0 for LTV, CAC and Churn_Rate, none of them
    formatted. *)
Theorem key_metrics_of_empty (df : DataFrame) :
  Pandas.empty df = true ->
  get_key_metrics df
  = Return {[ "LTV" := PyInt 0; "CAC" := PyInt 0; "Churn_Rate" := PyInt 0 ]}.
Proof. intros H. unfold get_key_metrics. rewrite H. reflexivity. Qed.

Lemma key_metrics_of_empty_witness :
  get_key_metrics Sample.no_rows
  = Return {[ "LTV" := PyInt 0; "CAC" := PyInt 0; "Churn_Rate" := PyInt 0 ]}.
Proof. apply (key_metrics_of_empty Sample.no_rows). reflexivity. Defined.

(** *** Missing columns *)

Lemma selected_nil (df : DataFrame) (label : string) :
  ~ In label (labels df) -> selected df label = [].
Proof.
  unfold selected, labels. induction df as [|[l s] r IH]; [reflexivity|].
  simpl. intros Hn. destruct (String.eqb_spec l label) as [->|Hne].
  - contradiction Hn. left. reflexivity.
  - apply IH. intros Hin. apply Hn. right. exact Hin.
Qed.

Lemma column_missing (df : DataFrame) (label : string) :
  ~ In label (labels df) -> column df label = Raise (KeyError label).
Proof. intros H. unfold column, getitem. rewrite (selected_nil df label H). reflexivity. Qed.

Lemma selected_not_in (df : DataFrame) (label : string) :
  ~ In label (labels df) ->
  List.filter (fun c => String.eqb (fst c) label) df = [].
Proof.
  unfold labels. induction df as [|[l s] r IH]; [reflexivity|].
  simpl. intros Hn. destruct (String.eqb_spec l label) as [->|Hne].
  - contradiction Hn. left. reflexivity.
  - apply IH. intros Hin. apply Hn. right. exact Hin.
Qed.

Lemma column_present (df : DataFrame) (label : string) :
  List.NoDup (labels df) -> In label (labels df) ->
  exists s, column df label = Return s.
Proof.
  unfold column, getitem, selected, labels.
  induction df as [|[l s] r IH]; [contradiction|].
  simpl. intros Hnd Hin. apply List.NoDup_cons_iff in Hnd as [Hl Hnd].
  destruct (String.eqb_spec l label) as [->|Hne].
  - rewrite (selected_not_in r label Hl). exists s. reflexivity.
  - destruct Hin as [Heq|Hin]; [contradiction|]. apply (IH Hnd Hin).
Qed.

(** C6, as stated, fails: without [purchase_date] and with amounts kept
    as text, what is raised is the type error of the aggregation, not
    the error of the missing column. *)
Lemma text_amounts_hide_missing_column :
  Pandas.empty Sample.text_amounts_no_date = false
  /\ ~ In "purchase_date" (labels Sample.text_amounts_no_date)
  /\ get_key_metrics Sample.text_amounts_no_date = Raise TypeError.
Proof.
  split; [reflexivity|]. split; [|reflexivity].
  simpl. intros [H|[H|[]]]; discriminate H.
Qed.

(** C6, amended: on a non-empty frame (with distinct labels) that lacks
    a required column, [get_key_metrics] raises instead of returning a
    value; what it raises is the KeyError of a missing required column
    whenever the [purchase_amount] column, if there is one, is
    numeric, and so whenever [customer_id] or [purchase_amount] is a
    missing one. *)
Theorem missing_column_raises (df : DataFrame) (c : string) :
  Pandas.empty df = false ->
  List.NoDup (labels df) ->
  In c Spec.required_columns ->
  ~ In c (labels df) ->
  raises (get_key_metrics df)
  /\ ((forall s, column df "purchase_amount" = Return s -> numbers s <> None) ->
      exists k,
        In k Spec.required_columns /\ ~ In k (labels df)
        /\ get_key_metrics df = Raise (KeyError k)).
Proof.
  intros Hrows Hnd Hc Hmiss. unfold get_key_metrics, raises. rewrite Hrows.
  destruct (in_dec string_dec "customer_id" (labels df)) as [Hid|Hid].
  2:{ rewrite (column_missing df _ Hid). cbn [bind]. split; [eauto|].
      intros _. exists "customer_id". split; [simpl; auto|]. split; [exact Hid|reflexivity]. }
  destruct (column_present df _ Hnd Hid) as [ids ->]. cbn [bind].
  destruct (in_dec string_dec "purchase_amount" (labels df)) as [Ham|Ham].
  2:{ rewrite (column_missing df _ Ham). cbn [bind]. split; [eauto|].
      intros _. exists "purchase_amount". split; [simpl; auto|].
      split; [exact Ham|reflexivity]. }
  destruct (column_present df _ Hnd Ham) as [amount_col Hcol]. rewrite Hcol. cbn [bind].
  assert (Hdate : ~ In "purchase_date" (labels df)).
  { destruct Hc as [<-|[<-|[<-|[]]]]; [contradiction|contradiction|exact Hmiss]. }
  rewrite (column_missing df _ Hdate).
  destruct (numbers amount_col) as [amounts|] eqn:Hnum; cbn [bind].
  - split; [eauto|]. intros _. exists "purchase_date". split; [simpl; auto|].
    split; [exact Hdate|reflexivity].
  - split; [eauto|]. intros Hnumeric. contradiction (Hnumeric amount_col eq_refl Hnum).
Qed.

Lemma missing_column_raises_witness :
  raises (get_key_metrics Sample.no_amount)
  /\ exists k,
      In k Spec.required_columns /\ ~ In k (labels Sample.no_amount)
      /\ get_key_metrics Sample.no_amount = Raise (KeyError k).
Proof.
  assert (Hnd : List.NoDup (labels Sample.no_amount)).
  { simpl. repeat constructor; simpl; intros H; decompose [or] H; discriminate || contradiction. }
  assert (Hmiss : ~ In "purchase_amount" (labels Sample.no_amount)).
  { simpl. intros [H|[H|[]]]; discriminate H. }
  assert (Hreq : In "purchase_amount" Spec.required_columns) by (simpl; auto).
  destruct (missing_column_raises Sample.no_amount "purchase_amount"
              eq_refl Hnd Hreq Hmiss) as [Hr Hk].
  split; [exact Hr|]. apply Hk. intros s Hs. discriminate Hs.
Defined.

(** *** Business insights *)






(** *** Distinct values and churn *)


Lemma scalar_eqb_sym (a b : Scalar) : scalar_eqb a b = scalar_eqb b a.
Proof.
  destruct a, b; simpl; try reflexivity.
  - apply Z.eqb_sym.
  - apply Qeq_bool_comm.
  - destruct b0, b; reflexivity.
  - apply Z.eqb_sym.
  - apply String.eqb_sym.
Qed.

Lemma scalar_eqb_trans (a b c : Scalar) :
  scalar_eqb a b = true -> scalar_eqb b c = true -> scalar_eqb a c = true.
Proof.
  destruct a, b; simpl; try discriminate; destruct c; simpl; try discriminate.
  - intros ->%Z.eqb_eq. exact (fun H => H).
  - apply Qeq_bool_trans.
  - intros ->%Bool.eqb_prop. exact (fun H => H).
  - intros ->%Z.eqb_eq. exact (fun H => H).
  - intros ->%String.eqb_eq. exact (fun H => H).
Qed.

Lemma existsb_scalar_eqb_congr (a b : Scalar) (l : list Scalar) :
  scalar_eqb a b = true -> existsb (scalar_eqb a) l = existsb (scalar_eqb b) l.
Proof.
  intros Hab. induction l as [|x r IH]; [reflexivity|]. simpl. rewrite IH. f_equal.
  destruct (scalar_eqb b x) eqn:Hbx.
  - apply (scalar_eqb_trans a b x Hab Hbx).
  - apply not_true_is_false. intros Hax. rewrite scalar_eqb_sym in Hab.
    rewrite (scalar_eqb_trans b a x Hab Hax) in Hbx. discriminate Hbx.
Qed.

(** [unique] keeps one cell of every value: it holds the same values as
    the list, and no value twice. *)
Lemma unique_mem (c : Scalar) (l : list Scalar) :
  existsb (scalar_eqb c) (unique l) = existsb (scalar_eqb c) l.
Proof.
  induction l as [|x r IH]; [reflexivity|]. simpl.
  destruct (existsb (scalar_eqb x) r) eqn:Hx.
  - rewrite IH. destruct (scalar_eqb c x) eqn:Hcx; [|reflexivity].
    rewrite (existsb_scalar_eqb_congr c x r Hcx), Hx. reflexivity.
  - simpl. rewrite IH. reflexivity.
Qed.



(** The customers behind [churned_customers]: those with at least one
    purchase before the cutoff. *)
Lemma customers_before_any_purchase (cutoff : Z) (ids : list Scalar) (dates : list Z)
    (c : Scalar) :
  existsb (scalar_eqb c)
          (unique (map fst (List.filter (fun r => (snd r <? cutoff)%Z) (combine ids dates))))
  = true
  <-> exists d, In d (Spec.purchases_of c ids dates) /\ (d < cutoff)%Z.
Proof.
  rewrite unique_mem. unfold Spec.purchases_of. split.
  - intros [k [[[k' d] [Hk Hr]]%in_map_iff Hck]]%existsb_exists.
    simpl in Hk. subst k'. apply filter_In in Hr as [Hr Hd]. simpl in Hd.
    exists d. split; [|apply Z.ltb_lt, Hd].
    apply in_map_iff. exists (k, d). split; [reflexivity|].
    apply filter_In. split; [exact Hr|]. simpl. rewrite scalar_eqb_sym. exact Hck.
  - intros (d & [[k d'] [Hd Hr]]%in_map_iff & Hlt). simpl in Hd. subst d'.
    apply filter_In in Hr as [Hr Hk]. simpl in Hk.
    apply existsb_exists. exists k. split; [|rewrite scalar_eqb_sym; exact Hk].
    apply in_map_iff. exists (k, d). split; [reflexivity|].
    apply filter_In. split; [exact Hr|]. simpl. apply Z.ltb_lt, Hlt.
Qed.

(** C1: the customers the code counts as churned are those with at least
    one purchase older than the window, whatever they bought since.  A
    customer who bought on day 0 and on day 400 has their most recent
    purchase on the latest date of the data, so the count of the
    specification is 0 of 1 customer, a rate of 0.00%; [get_key_metrics]
    reports 100.00%. *)
Theorem churn_counts_returning_customer :
  (forall cutoff ids dates c,
      existsb (scalar_eqb c)
              (unique (map fst (List.filter (fun r => (snd r <? cutoff)%Z)
                                            (combine ids dates))))
      = true
      <-> exists d, In d (Spec.purchases_of c ids dates) /\ (d < cutoff)%Z)
  /\ latest [Sample.day 0; Sample.day 400] = Return (Sample.day 400)
  /\ nunique (ObjectS ["ada"; "ada"]) = 1%nat
  /\ Spec.churned_by_recency (Sample.day 400) (values (ObjectS ["ada"; "ada"]))
                             [Sample.day 0; Sample.day 400] = 0%nat
  /\ get_key_metrics Sample.returning_customer
     = Return {[ "LTV" := PyStr "32.88"; "CAC" := PyStr "30.00";
                 "Churn_Rate" := PyStr "100.00%" ]}.
Proof.
  split; [exact customers_before_any_purchase|]. repeat split; reflexivity.
Qed.

End Metrics.

(** ** Ingestion *)

Section Ingestion.

Import Pandas Pre.

Lemma set_columns_relabel (f : string -> string) (df : DataFrame) :
  set_columns (map f (labels df)) df = relabel f df.
Proof.
  unfold set_columns, relabel, labels.
  induction df as [|[l s] r IH]; [reflexivity|].
  simpl. f_equal. exact IH.
Qed.

Lemma relabel_relabel (f g : string -> string) (df : DataFrame) :
  relabel g (relabel f df) = relabel (fun l => g (f l)) df.
Proof. unfold relabel. rewrite map_map. reflexivity. Qed.

Lemma relabel_ext (f g : string -> string) (df : DataFrame) :
  (forall l, f l = g l) -> relabel f df = relabel g df.
Proof. intros H. unfold relabel. apply map_ext. intros c. rewrite H. reflexivity. Qed.

Lemma labels_relabel (f : string -> string) (df : DataFrame) :
  labels (relabel f df) = map f (labels df).
Proof. unfold labels, relabel. rewrite !map_map. reflexivity. Qed.

Lemma nrows_relabel (f : string -> string) (df : DataFrame) :
  nrows (relabel f df) = nrows df.
Proof. destruct df as [|[l s] r]; reflexivity. Qed.

Lemma row_at_relabel (f : string -> string) (i : nat) (df : DataFrame) :
  row_at i (relabel f df) = row_at i df.
Proof.
  induction df as [|[l s] r IH]; [reflexivity|].
  simpl. rewrite IH. reflexivity.
Qed.

Lemma rows_relabel (f : string -> string) (df : DataFrame) :
  rows (relabel f df) = rows df.
Proof.
  unfold rows. rewrite nrows_relabel. apply map_ext.
  intros i. apply row_at_relabel.
Qed.

(** The quoting is undone by the stripping. *)
Lemma strip_sanitize (l : string) :
  PyStr.strip_char PyStr.dquote (sanitize_column_name l) = sanitize_core l.
Proof. apply sanitized_name_core. Qed.

Lemma has_duplicates_NoDup (l : list string) :
  Pg.has_duplicates l = false -> List.NoDup l.
Proof.
  induction l as [|x r IH]; simpl; [constructor|].
  intros [Hx Hr]%orb_false_elim. constructor; [|apply IH, Hr].
  intros Hin. apply not_true_iff_false in Hx. apply Hx.
  apply existsb_exists. exists x. split; [exact Hin | apply String.eqb_refl].
Qed.

Lemma NoDup_has_duplicates (l : list string) :
  List.NoDup l -> Pg.has_duplicates l = false.
Proof.
  induction 1 as [|x r Hx Hr IH]; simpl; [reflexivity|].
  rewrite IH, orb_false_r. apply not_true_is_false.
  intros [y [Hy Heq]]%existsb_exists. apply String.eqb_eq in Heq. subst. contradiction.
Qed.

Lemma sanitize_column_name_inj (a b : string) :
  sanitize_column_name a = sanitize_column_name b -> sanitize_core a = sanitize_core b.
Proof. intros H. rewrite <- !strip_sanitize, H. reflexivity. Qed.

Lemma NoDup_quoted (names : list string) :
  List.NoDup (map sanitize_core names) -> List.NoDup (map sanitize_column_name names).
Proof.
  induction names as [|x r IH]; simpl; intros H; [constructor|].
  apply List.NoDup_cons_iff in H as [Hx Hr]. constructor; [|apply IH, Hr].
  intros [y [Heq Hy]]%in_map_iff. apply Hx. apply in_map_iff.
  exists y. split; [apply sanitize_column_name_inj, Heq | exact Hy].
Qed.

(** A label that occurs once selects its column. *)
Lemma getitem_once (df : DataFrame) (l : string) (s : Series) :
  List.NoDup (labels df) -> In (l, s) df -> getitem df l = Return (OneColumn s).
Proof.
  unfold getitem, selected, labels.
  induction df as [|[l0 s0] r IH]; [contradiction|].
  simpl. intros Hnd Hin. apply List.NoDup_cons_iff in Hnd as [Hl0 Hnd].
  destruct Hin as [Heq|Hin].
  - injection Heq as -> ->. rewrite String.eqb_refl.
    rewrite (selected_not_in r l Hl0). reflexivity.
  - destruct (String.eqb_spec l0 l) as [->|Hne].
    + contradiction Hl0. apply in_map_iff. exists (l, s). split; [reflexivity|exact Hin].
    + apply (IH Hnd Hin).
Qed.

(** A label of the frame selects something. *)
Lemma getitem_present (df : DataFrame) (l : string) :
  In l (labels df) -> exists sel, getitem df l = Return sel.
Proof.
  intros Hin. unfold getitem.
  destruct (selected df l) as [|s0 [|s1 r]] eqn:Hsel; eauto.
  exfalso. unfold labels in Hin. apply in_map_iff in Hin as [[l' s] [Heq Hin]].
  simpl in Heq. subst l'.
  assert (Hs : In s (selected df l)).
  { unfold selected. apply in_map_iff. exists (l, s). split; [reflexivity|].
    apply filter_In. split; [exact Hin | apply String.eqb_refl]. }
  rewrite Hsel in Hs. destruct Hs.
Qed.

Lemma schema_of_distinct (df : DataFrame) (cols : DataFrame) :
  List.NoDup (labels df) ->
  (forall c, In c cols -> In c df) ->
  schema_of df (labels cols)
  = Return (map (fun c => (fst c, infer_sql_type (OneColumn (snd c)))) cols).
Proof.
  intros Hnd. induction cols as [|[l s] r IH]; intros Hsub; [reflexivity|].
  simpl. rewrite (getitem_once df l s Hnd) by (apply Hsub; left; reflexivity).
  cbn [bind]. rewrite IH by (intros c Hc; apply Hsub; right; exact Hc).
  reflexivity.
Qed.

Lemma schema_of_returns (df : DataFrame) (cols : list string) :
  (forall l, In l cols -> In l (labels df)) ->
  exists defs, schema_of df cols = Return defs /\ map fst defs = cols.
Proof.
  induction cols as [|l r IH]; intros Hsub; [exists []; split; reflexivity|].
  destruct (getitem_present df l) as [sel Hsel]; [apply Hsub; left; reflexivity|].
  destruct IH as (defs & Hdefs & Hfst); [intros x Hx; apply Hsub; right; exact Hx|].
  exists ((l, infer_sql_type sel) :: defs). simpl. rewrite Hsel. cbn [bind].
  rewrite Hdefs. cbn [bind]. split; [reflexivity|]. simpl. rewrite Hfst. reflexivity.
Qed.

Lemma quoted_ok_sanitized (l : string) :
  Pg.quoted_ok (sanitize_column_name l) = negb (String.eqb (sanitize_core l) "").
Proof. unfold Pg.quoted_ok. rewrite strip_sanitize. reflexivity. Qed.

(** The definitions sent with CREATE TABLE, whatever [df[col]] selected
    for their types, carry the sanitized names. *)
Lemma create_defs_names (df : DataFrame) (defs : list (string * SqlType)) :
  map fst defs = map sanitize_column_name (labels df) ->
  map fst (map (fun d => (PyStr.strip_char PyStr.dquote (fst d), snd d)) defs)
  = map sanitize_core (labels df)
  /\ forallb (fun d => Pg.quoted_ok (fst d)) defs
     = forallb (fun n => negb (String.eqb n "")) (map sanitize_core (labels df)).
Proof.
  generalize (labels df) as names. clear df.
  induction defs as [|[q ty] r IH]; intros [|n names] H; try discriminate H.
  - split; reflexivity.
  - simpl in H. injection H as -> Hr. destruct (IH names Hr) as [IH1 IH2].
    simpl. rewrite strip_sanitize, quoted_ok_sanitized, IH1, IH2. split; reflexivity.
Qed.

Lemma column_defs_names (df : DataFrame) :
  map fst (column_defs df) = map sanitize_core (labels df).
Proof. unfold column_defs, labels. rewrite !map_map. reflexivity. Qed.

(** The whole course of the [try] block. *)
Lemma ingest_try_run (srv : Pg.Server) (db : Pg.Store) (df : DataFrame)
    (table_name : string) :
  ingest_try srv table_name {| caller_df := df; conn := Pg.connect db |}
  = if negb (Pg.unquoted_ok srv (sanitized_name table_name)) then
      (Raise DatabaseError, {| caller_df := df; conn := Pg.connect db |})
    else if negb (creatable df) then
      (Raise DatabaseError,
       {| caller_df := relabel sanitize_column_name df;
          conn := after_drop db (sanitized_name table_name) |})
    else
      let c := after_create db (sanitized_name table_name) df in
      match Pg.copy_rows srv (Pg.new_table (column_defs df)) (rows df) with
      | (Return _, t) =>
          (Return true,
           {| caller_df := relabel sanitize_core df;
              conn := Pg.commit
                        (Pg.with_view (<[sanitized_name table_name := t]> (Pg.view c)) c) |})
      | (Raise e, t) =>
          (Raise e,
           {| caller_df := relabel sanitize_core df;
              conn := Pg.with_view (<[sanitized_name table_name := t]> (Pg.view c)) c |})
      end.
Proof.
  set (name := sanitized_name table_name).
  unfold ingest_try. fold name.
  unfold bindP at 1. unfold on_conn at 1, drop_table_query. cbn [conn caller_df].
  destruct (Pg.unquoted_ok srv name) eqn:Hname; [|reflexivity].
  cbn [negb Pg.execute Pg.exec_script Pg.exec_stmt].
  unfold bindP at 1, conn_commit at 1, on_conn at 1. cbn [conn caller_df].
  unfold bindP at 1, read_df at 1. cbn [conn caller_df].
  unfold bindP at 1, assign_columns at 1. cbn [conn caller_df].
  unfold bindP at 1, read_df at 1. cbn [conn caller_df].
  rewrite set_columns_relabel.
  fold (after_drop db name).
  unfold bindP at 1, lift at 1.
  destruct (creatable df) eqn:Hcr; cbn [negb].
  - (* the table can be created *)
    apply andb_prop in Hcr as [Hne Hnd]. apply negb_true_iff in Hnd.
    assert (Hnd1 : List.NoDup (labels (relabel sanitize_column_name df))).
    { rewrite labels_relabel. apply NoDup_quoted, has_duplicates_NoDup, Hnd. }
    rewrite (schema_of_distinct _ (relabel sanitize_column_name df) Hnd1)
      by (intros c Hc; exact Hc).
    assert (Hq : create_table_query srv name
                   (map (fun c => (fst c, infer_sql_type (OneColumn (snd c))))
                        (relabel sanitize_column_name df))
                 = Pg.Script [Pg.CreateTable name (column_defs df)]).
    { unfold create_table_query. rewrite Hname.
      destruct (create_defs_names df
                  (map (fun c => (fst c, infer_sql_type (OneColumn (snd c))))
                       (relabel sanitize_column_name df))) as [_ Hok].
      { unfold relabel, labels. rewrite !map_map. reflexivity. }
      rewrite Hok, Hne. cbn [andb]. do 3 f_equal.
      unfold relabel, column_defs. rewrite !map_map. apply map_ext.
      intros [l s]. cbn [fst snd]. rewrite strip_sanitize. reflexivity. }
    unfold bindP at 1, on_conn at 1. cbn [conn caller_df]. rewrite Hq.
    cbn [Pg.execute Pg.exec_script Pg.exec_stmt].
    replace (Pg.view (after_drop db name) !! name) with (@None Pg.Table)
      by (symmetry; apply lookup_delete_eq).
    rewrite column_defs_names, Hnd.
    fold (after_create db name df).
    unfold bindP at 1, conn_commit at 1, on_conn at 1. cbn [conn caller_df].
    unfold bindP at 1, read_df at 1. cbn [conn caller_df].
    unfold bindP at 1, assign_columns at 1. cbn [conn caller_df].
    unfold bindP at 1, read_df at 1. cbn [conn caller_df].
    rewrite set_columns_relabel, relabel_relabel.
    rewrite (relabel_ext _ sanitize_core df) by (intros l; apply strip_sanitize).
    rewrite rows_relabel.
    unfold bindP at 1, on_conn at 1, Pg.copy_from. cbn [conn caller_df].
    replace (Pg.view (Pg.commit (Pg.with_view (<[name := Pg.new_table (column_defs df)]>
                                                 (Pg.view (after_drop db name)))
                                              (after_drop db name))) !! name)
      with (Some (Pg.new_table (column_defs df)))
      by (symmetry; apply lookup_insert_eq).
    change (Pg.commit (Pg.with_view (<[name := Pg.new_table (column_defs df)]>
                                       (Pg.view (after_drop db name)))
                                    (after_drop db name)))
      with (after_create db name df).
    destruct (Pg.copy_rows srv (Pg.new_table (column_defs df)) (rows df)) as [[[]|e] t];
      reflexivity.
  - (* the table cannot be created *)
    destruct (schema_of_returns (relabel sanitize_column_name df)
                (labels (relabel sanitize_column_name df))) as (defs & -> & Hfst);
      [intros l Hl; exact Hl|].
    rewrite labels_relabel in Hfst.
    destruct (create_defs_names df defs Hfst) as [Hnames Hok].
    unfold bindP at 1, on_conn at 1, create_table_query. cbn [conn caller_df].
    rewrite Hname, Hok. cbn [andb].
    apply andb_false_iff in Hcr as [Hempty|Hdup].
    + rewrite Hempty. reflexivity.
    + apply negb_false_iff in Hdup.
      destruct (forallb _ (map sanitize_core (labels df))); [|reflexivity].
      cbn [Pg.execute Pg.exec_script Pg.exec_stmt].
      replace (Pg.view (after_drop db name) !! name) with (@None Pg.Table)
        by (symmetry; apply lookup_delete_eq).
      rewrite Hnames, Hdup. reflexivity.
Qed.







End Ingestion.

(** ** Retrieval *)

Section Retrieval.

Import Pandas.















End Retrieval.

(** ** Ingestion: outcomes, frame and round trip *)

Section IngestionOutcomes.

Import Pandas Pre.

(** Every course a call can take, with what it leaves behind. *)
Lemma ingest_outcome (srv : Pg.Server) (db : Pg.Store) (df : DataFrame)
    (table_name : string) :
  let name := sanitized_name table_name in
  let dropped := delete name db in
  let created := <[name := Pg.new_table (column_defs df)]> dropped in
  ingest_csv_data srv db df table_name
  = if negb (Pg.reachable srv) || negb (Pg.unquoted_ok srv name) then
      {| result := Return false; df_after := df; db_after := db; commits := [] |}
    else if negb (creatable df) then
      {| result := Return false; df_after := relabel sanitize_column_name df;
         db_after := dropped; commits := [dropped] |}
    else
      match Pg.copy_rows srv (Pg.new_table (column_defs df)) (rows df) with
      | (Return _, t) =>
          {| result := Return true; df_after := relabel sanitize_core df;
             db_after := <[name := t]> dropped;
             commits := [<[name := t]> dropped; created; dropped] |}
      | (Raise _, _) =>
          {| result := Return false; df_after := relabel sanitize_core df;
             db_after := created; commits := [created; dropped] |}
      end.
Proof.
  intros name dropped created. unfold ingest_csv_data, get_db_connection.
  destruct (Pg.reachable srv); [|reflexivity]. rewrite ingest_try_run. fold name.
  destruct (Pg.unquoted_ok srv name); [|reflexivity].
  destruct (creatable df); [|reflexivity]. cbn [negb orb]. cbv zeta.
  destruct (Pg.copy_rows srv (Pg.new_table (column_defs df)) (rows df)) as [[[]|e] t].
  - cbn [Pg.close Pg.commit Pg.committed Pg.view Pg.with_view Pg.history conn caller_df
           after_create after_drop Pg.connect].
    fold dropped. rewrite insert_insert_eq. reflexivity.
  - reflexivity.
Qed.












(** X2: whatever its outcome, [ingest_csv_data] touches no table but the
    one of the sanitized name: every other table is the same in the
    final database, and in every store committed on the way. *)
Theorem ingest_leaves_other_tables (srv : Pg.Server) (db : Pg.Store) (df : DataFrame)
    (table_name other : string) :
  other <> sanitized_name table_name ->
  db_after (ingest_csv_data srv db df table_name) !! other = db !! other
  /\ forall st, In st (commits (ingest_csv_data srv db df table_name)) ->
                st !! other = db !! other.
Proof.
  intros Hne. assert (Hne' : sanitized_name table_name <> other) by congruence.
  rewrite ingest_outcome. cbv zeta.
  destruct (negb (Pg.reachable srv) || negb (Pg.unquoted_ok srv (sanitized_name table_name))).
  { split; [reflexivity | intros st []]. }
  destruct (negb (creatable df)).
  { cbn [db_after commits]. rewrite lookup_delete_ne by exact Hne'.
    split; [reflexivity|]. intros st [<-|[]]. apply lookup_delete_ne, Hne'. }
  destruct (Pg.copy_rows srv (Pg.new_table (column_defs df)) (rows df)) as [[[]|e] t];
    cbn [db_after commits];
    rewrite lookup_insert_ne, lookup_delete_ne by exact Hne';
    (split; [reflexivity|]);
    intros st Hst; repeat (destruct Hst as [<-|Hst]); try contradiction;
    rewrite ?lookup_insert_ne, ?lookup_delete_ne by exact Hne'; reflexivity.
Qed.

Lemma ingest_leaves_other_tables_witness :
  db_after (ingest_csv_data Sample.online Sample.stored Sample.upload "orders")
    !! "customer_data"
  = Sample.stored !! "customer_data".
Proof.
  refine (proj1 (ingest_leaves_other_tables Sample.online Sample.stored Sample.upload
                   "orders" "customer_data" _)).
  discriminate.
Defined.

(** X3: a call that fails before the create leaves the database as it
    was only if it fails at the connection or at the drop.  When the
    create fails, because two headers sanitize to the same name or one
    to the empty name, the drop is already committed: the call returns
    False and the table it was to replace is gone. *)
Theorem failed_create_loses_table (srv : Pg.Server) (db : Pg.Store) (df : DataFrame)
    (table_name : string) :
  (Pg.reachable srv = false \/ Pg.unquoted_ok srv (sanitized_name table_name) = false ->
   result (ingest_csv_data srv db df table_name) = Return false
   /\ db_after (ingest_csv_data srv db df table_name) = db
   /\ commits (ingest_csv_data srv db df table_name) = [])
  /\ (Pg.reachable srv = true ->
      Pg.unquoted_ok srv (sanitized_name table_name) = true ->
      creatable df = false ->
      result (ingest_csv_data srv db df table_name) = Return false
      /\ db_after (ingest_csv_data srv db df table_name)
         = delete (sanitized_name table_name) db
      /\ db_after (ingest_csv_data srv db df table_name) !! sanitized_name table_name
         = None).
Proof.
  rewrite ingest_outcome. cbv zeta. split.
  - intros [-> | ->]; rewrite ?orb_true_r; cbn [negb orb]; repeat split; reflexivity.
  - intros -> -> ->. cbn [negb orb result db_after].
    split; [reflexivity|]. split; [reflexivity|]. apply lookup_delete_eq.
Qed.

Lemma failed_create_loses_table_witness :
  Sample.stored !! "customer_data" <> None
  /\ result (ingest_csv_data Sample.online Sample.stored Sample.clashing_headers
                             "Customer Data") = Return false
  /\ db_after (ingest_csv_data Sample.online Sample.stored Sample.clashing_headers
                               "Customer Data") !! "customer_data" = None.
Proof.
  split; [discriminate|].
  destruct (proj2 (failed_create_loses_table Sample.online Sample.stored
                     Sample.clashing_headers "Customer Data")
              eq_refl eq_refl eq_refl) as (Hres & _ & Hgone).
  split; [exact Hres | exact Hgone].
Defined.



(** *** The load, column by column *)
















End IngestionOutcomes.

(** ** Metrics engine: bounds and degenerate cases *)

Section MetricsBounds.

Import Pandas Pre.




Lemma Zmaximum_spec (l : list Z) (x : Z) :
  In (Zmaximum x l) (x :: l) /\ forall y, In y (x :: l) -> (y <= Zmaximum x l)%Z.
Proof.
  unfold Zmaximum. revert x. induction l as [|z r IH]; intros x; simpl.
  - split; [left; reflexivity|]. intros y [<-|[]]. lia.
  - destruct (IH (Z.max x z)) as [Hin Hle]. split.
    + destruct Hin as [Hin|Hin]; [|right; right; exact Hin].
      rewrite <- Hin. destruct (Z.max_spec x z) as [[_ ->]|[_ ->]]; auto.
    + intros y [<-|[<-|Hy]].
      * specialize (Hle (Z.max x z) (or_introl eq_refl)). lia.
      * specialize (Hle (Z.max x z) (or_introl eq_refl)). lia.
      * apply Hle. right. exact Hy.
Qed.


Lemma format_2f_zero (q : Q) : Qnum q = 0%Z -> Fmt.format_2f q = "0.00".
Proof.
  intros H. unfold Fmt.format_2f, Fmt.round_hundredths. rewrite H.
  cbn [Z.abs Z.mul]. rewrite Z.div_0_l, Zmod_0_l by discriminate.
  cbn [Z.mul]. destruct (Z.ltb_spec 0 (Z.pos (Qden q))) as [_|Hd]; [reflexivity|].
  pose proof (Pos2Z.is_pos (Qden q)). lia.
Qed.

Lemma latest_inv (dates : list Z) (date_max : Z) :
  latest dates = Return date_max ->
  In date_max dates /\ forall d, In d dates -> (d <= date_max)%Z.
Proof.
  destruct dates as [|d0 dr]; [discriminate|]. intros [= <-]. apply Zmaximum_spec.
Qed.


Lemma customers_before_none (cutoff : Z) (ids : list Scalar) (dates : list Z) :
  (forall d, In d dates -> (cutoff <= d)%Z) ->
  customers_before cutoff ids dates = 0%nat.
Proof.
  intros H. unfold customers_before.
  replace (List.filter _ (combine ids dates)) with (@nil (Scalar * Z)); [reflexivity|].
  symmetry. revert dates H. induction ids as [|k ids IH]; intros [|d dates] H;
    try reflexivity.
  simpl. destruct (Z.ltb_spec d cutoff) as [Hlt|_].
  - specialize (H d (or_introl eq_refl)). lia.
  - apply IH. intros d' Hd'. apply H. right. exact Hd'.
Qed.



(** X7: when no two purchases are more than 365 days apart, nobody is
    counted as churned: the churn rate returned is 0.00%. *)
Theorem no_churn_within_a_year (df : DataFrame) (ids : Series) (amounts : list Q)
    (dates : list Z) :
  metrics_ready df ids amounts dates ->
  (forall d1 d2, In d1 dates -> In d2 dates -> (d1 - d2 <= 365 * ns_per_day)%Z) ->
  exists r,
    get_key_metrics df = Return r /\ r !! "Churn_Rate" = Some (PyStr "0.00%").
Proof.
  intros H Hspan. destruct (key_metrics_value df ids amounts dates H)
    as (date_max & date_min & Hmax & _ & ->).
  destruct (latest_inv dates date_max Hmax) as [Hin _].
  rewrite customers_before_none
    by (intros d Hd; specialize (Hspan date_max d Hin Hd); lia).
  eexists. split; [reflexivity|].
  rewrite (format_2f_zero
             (inject_Z (Z.of_nat 0) / inject_Z (Z.of_nat (nunique ids)) * 100)%Q)
    by reflexivity.
  reflexivity.
Qed.

Lemma no_churn_within_a_year_witness :
  exists r,
    get_key_metrics Sample.one_customer = Return r
    /\ r !! "Churn_Rate" = Some (PyStr "0.00%").
Proof.
  apply (no_churn_within_a_year Sample.one_customer (IntS [7; 7]%Z)
           [100 # 1; 200 # 1] [Sample.day 0; Sample.day 30]
           metrics_ready_one_customer).
  intros d1 d2 [<-|[<-|[]]] [<-|[<-|[]]]; vm_compute; discriminate.
Defined.



(** X9: [get_business_insights] looks up [customer_id] first and
    [purchase_amount] second, and nothing else: on a non-empty frame
    (with distinct labels) without [customer_id] it raises the KeyError
    of [customer_id], also when the amounts are there; with
    [customer_id] and without [purchase_amount] it raises the KeyError
    of [purchase_amount]. *)
Theorem insights_missing_column (df : DataFrame) :
  Pandas.empty df = false ->
  List.NoDup (labels df) ->
  (~ In "customer_id" (labels df) ->
   get_business_insights df = Raise (KeyError "customer_id"))
  /\ (In "customer_id" (labels df) -> ~ In "purchase_amount" (labels df) ->
      get_business_insights df = Raise (KeyError "purchase_amount")).
Proof.
  intros Hrows Hnd. unfold get_business_insights. rewrite Hrows. split.
  - intros Hid. rewrite (column_missing df _ Hid). reflexivity.
  - intros Hid Ham. destruct (column_present df _ Hnd Hid) as [ids ->]. cbn [bind].
    rewrite (column_missing df _ Ham). reflexivity.
Qed.

Lemma insights_missing_column_witness :
  get_business_insights [("purchase_amount", IntS [10; 20; 30]%Z)]
  = Raise (KeyError "customer_id").
Proof.
  refine (proj1 (insights_missing_column [("purchase_amount", IntS [10; 20; 30]%Z)]
                   eq_refl _) _).
  - repeat constructor. intros [].
  - intros [H|[]]. discriminate H.
Defined.


End MetricsBounds.

(** ** The dashboard page *)

Section Dashboard.

Import Pandas Pre Frontend.

Lemma key_metrics_formatted (df : DataFrame) (m : gmap string PyVal) :
  Pandas.empty df = false ->
  get_key_metrics df = Return m ->
  exists ltv cac churn,
    m = {[ "LTV" := PyStr ltv; "CAC" := PyStr cac; "Churn_Rate" := PyStr churn ]}.
Proof.
  intros Hrows. unfold get_key_metrics. rewrite Hrows. unfold bind.
  repeat match goal with
         | |- context [match ?x with Return _ => _ | Raise _ => _ end] =>
             destruct x; try discriminate
         | |- context [match ?x with Some _ => _ | None => _ end] =>
             destruct x; try discriminate
         end.
  intros [= <-]. eexists _, _, _. reflexivity.
Qed.

(** X13: the metric cards of the dashboard always show formatted strings.
    The page tests for an empty frame before it calls
    [get_key_metrics], so the integer defaults of the empty case never
    reach a card. *)
Theorem dashboard_cards_are_formatted (parse : string -> option Z) (srv : Pg.Server)
    (db : Pg.Store) (ltv cac churn : option PyVal) :
  dashboard parse srv db = Return (MetricCards ltv cac churn) ->
  exists x y z,
    ltv = Some (PyStr x) /\ cac = Some (PyStr y) /\ churn = Some (PyStr z).
Proof.
  unfold dashboard. destruct (get_cached_data parse srv db) as [df|e]; [|discriminate].
  cbn [bind]. unfold metrics_section.
  destruct (Pandas.empty df) eqn:Hrows; [discriminate|].
  destruct (get_key_metrics df) as [m|e] eqn:Hm.
  - destruct (key_metrics_formatted df m Hrows Hm) as (x & y & z & ->).
    intros [= <- <- <-]. exists x, y, z. repeat split; reflexivity.
  - destruct e; discriminate.
Qed.

Lemma dashboard_cards_are_formatted_witness :
  dashboard Demo.parse_date Sample.online
            (db_after (ingest_csv_data Sample.online Sample.stored Demo.csv
                                       "customer_data"))
  = Return (MetricCards (Some (PyStr "2.05")) (Some (PyStr "25.00"))
                        (Some (PyStr "0.00%")))
  /\ exists x y z,
      Some (PyStr "2.05") = Some (PyStr x) /\ Some (PyStr "25.00") = Some (PyStr y)
      /\ Some (PyStr "0.00%") = Some (PyStr z).
Proof.
  split; [reflexivity|].
  apply (dashboard_cards_are_formatted Demo.parse_date Sample.online
           (db_after (ingest_csv_data Sample.online Sample.stored Demo.csv
                                      "customer_data"))).
  reflexivity.
Defined.

Lemma has_column_In (df : DataFrame) (label : string) :
  has_column df label = true <-> In label (labels df).
Proof.
  unfold has_column. rewrite existsb_exists. split.
  - intros (x & Hx & ->%String.eqb_eq). exact Hx.
  - intros H. exists label. split; [exact H | apply String.eqb_refl].
Qed.





Lemma key_metrics_missing (df : DataFrame) :
  Pandas.empty df = false ->
  List.NoDup (labels df) ->
  (exists c, In c Spec.required_columns /\ ~ In c (labels df)) ->
  (forall s, column df "purchase_amount" = Return s -> numbers s <> None) ->
  exists k, get_key_metrics df = Raise (KeyError k).
Proof.
  intros Hrows Hnd (c & Hc & Hmiss) Hnum. unfold get_key_metrics. rewrite Hrows.
  destruct (in_dec string_dec "customer_id" (labels df)) as [Hid|Hid];
    [|rewrite (column_missing df _ Hid); eexists; reflexivity].
  destruct (column_present df _ Hnd Hid) as [ids ->]. cbn [bind].
  destruct (in_dec string_dec "purchase_amount" (labels df)) as [Ham|Ham];
    [|rewrite (column_missing df _ Ham); eexists; reflexivity].
  destruct (column_present df _ Hnd Ham) as [amount_col Hcol].
  specialize (Hnum amount_col Hcol). rewrite Hcol. cbn [bind].
  destruct (numbers amount_col) as [amounts|]; [|contradiction Hnum; reflexivity].
  cbn [bind].
  assert (Hdate : ~ In "purchase_date" (labels df)).
  { destruct Hc as [<-|[<-|[<-|[]]]]; [contradiction|contradiction|exact Hmiss]. }
  rewrite (column_missing df _ Hdate). eexists. reflexivity.
Qed.

(** X16: the page answers a missing column with its message, not with
    figures: on a non-empty frame (with distinct labels) that lacks a
    required column, and whose [purchase_amount], if there is one, is
    numeric, the metrics section is the error message about missing
    columns. *)
Theorem page_reports_missing_columns (df_data : DataFrame) (c : string) :
  Pandas.empty df_data = false ->
  List.NoDup (labels df_data) ->
  In c Spec.required_columns ->
  ~ In c (labels df_data) ->
  (forall s, column df_data "purchase_amount" = Return s -> numbers s <> None) ->
  metrics_section df_data = Return MissingColumnsError.
Proof.
  intros Hrows Hnd Hc Hmiss Hnum. unfold metrics_section. rewrite Hrows.
  destruct (key_metrics_missing df_data Hrows Hnd (ex_intro _ c (conj Hc Hmiss)) Hnum)
    as [k ->].
  reflexivity.
Qed.

Lemma page_reports_missing_columns_witness :
  metrics_section Sample.three_purchases = Return MissingColumnsError.
Proof.
  apply (page_reports_missing_columns Sample.three_purchases "purchase_date").
  - reflexivity.
  - repeat constructor; simpl; intros H; decompose [or] H; discriminate || contradiction.
  - simpl. auto.
  - simpl. intros [H|[H|[]]]; discriminate H.
  - intros s [= <-]. discriminate.
Defined.

End Dashboard.

(** ** Identifier sanitizer: algebra *)

Section SanitizerAlgebra.

Import PyStr.

Lemma map_chars_app (f : ascii -> ascii) (a b : string) :
  map_chars f (a ++ b) = (map_chars f a ++ map_chars f b)%string.
Proof. induction a as [|c r IH]; simpl; [reflexivity|]. rewrite IH. reflexivity. Qed.

Lemma filter_chars_app (p : ascii -> bool) (a b : string) :
  filter_chars p (a ++ b) = (filter_chars p a ++ filter_chars p b)%string.
Proof.
  induction a as [|c r IH]; simpl; [reflexivity|]. rewrite IH.
  destruct (p c); reflexivity.
Qed.

Lemma map_chars_map_chars (f g : ascii -> ascii) (s : string) :
  map_chars g (map_chars f s) = map_chars (fun c => g (f c)) s.
Proof. induction s as [|c r IH]; simpl; [reflexivity|]. rewrite IH. reflexivity. Qed.

Lemma map_chars_ext (f g : ascii -> ascii) (s : string) :
  (forall c, f c = g c) -> map_chars f s = map_chars g s.
Proof.
  intros H. induction s as [|c r IH]; simpl; [reflexivity|]. rewrite H, IH. reflexivity.
Qed.

Lemma lower_char_idem (c : ascii) : lower_char (lower_char c) = lower_char c.
Proof. destruct c as [[] [] [] [] [] [] [] []]; vm_compute; reflexivity. Qed.

Lemma space_then_lower (c : ascii) :
  lower_char (if Ascii.eqb c " " then "_"%char else c)
  = (if Ascii.eqb (lower_char c) " " then "_"%char else lower_char c)
  /\ (if Ascii.eqb (if Ascii.eqb (lower_char c) " " then "_"%char else lower_char c) " "
      then "_"%char
      else if Ascii.eqb (lower_char c) " " then "_"%char else lower_char c)
     = (if Ascii.eqb (lower_char c) " " then "_"%char else lower_char c).
Proof. destruct c as [[] [] [] [] [] [] [] []]; vm_compute; split; reflexivity. Qed.

Lemma sanitize_core_idem (s : string) : sanitize_core (sanitize_core s) = sanitize_core s.
Proof. apply sanitize_core_id, sanitize_core_ident. Qed.

(** X11: sanitizing is idempotent, for the quoted form as for the bare
    one: a name that has been sanitized is left as it is, so a table is
    found again under the name it was given and under the name it was
    stored as. *)
Theorem sanitized_name_idempotent (name : string) (srv : Pg.Server) (db : Pg.Store) :
  sanitized_name (sanitized_name name) = sanitized_name name
  /\ sanitize_column_name (sanitized_name name) = sanitize_column_name name
  /\ get_all_data srv db (sanitized_name name) = get_all_data srv db name.
Proof.
  assert (H : sanitized_name (sanitized_name name) = sanitized_name name).
  { rewrite !sanitized_name_core. apply sanitize_core_idem. }
  split; [exact H|]. split.
  - unfold sanitize_column_name. rewrite sanitized_name_core, sanitize_core_idem.
    reflexivity.
  - unfold get_all_data. rewrite H. reflexivity.
Qed.

(** X12: the sanitizer works character by character, and does not see
    the case of letters nor the difference between a space and an
    underscore: the sanitized name of a concatenation is the
    concatenation of the sanitized names, and lowering a name or writing
    its spaces as underscores beforehand changes nothing.  Headers that
    differ only in these respects get the same column name. *)
Theorem sanitize_core_blind (a b : string) :
  sanitize_core (a ++ b) = (sanitize_core a ++ sanitize_core b)%string
  /\ sanitize_core (lower a) = sanitize_core a
  /\ sanitize_core (replace_char " " "_" a) = sanitize_core a.
Proof.
  unfold sanitize_core, re_sub_non_ident, replace_char, lower. split; [|split].
  - rewrite !map_chars_app, filter_chars_app. reflexivity.
  - rewrite (map_chars_map_chars lower_char lower_char).
    rewrite (map_chars_ext _ lower_char a lower_char_idem). reflexivity.
  - f_equal. rewrite !map_chars_map_chars. apply map_chars_ext. intros c.
    destruct (space_then_lower c) as [H1 H2]. rewrite H1. exact H2.
Qed.

End SanitizerAlgebra.

(** ** The insight panels *)

Section InsightPanels.

Import Pandas Pre Frontend Panels.

Lemma column_getitem (df : DataFrame) (label : string) (s : Series) :
  column df label = Return s ->
  getitem df label = Return (OneColumn s) /\ has_column df label = true.
Proof.
  intros H. split.
  - unfold column in H. destruct (getitem df label) as [[s'|cols]|e]; simpl in H;
      try discriminate H. injection H as ->. reflexivity.
  - apply has_column_In. apply column_In in H. unfold labels. apply in_map_iff.
    exists (label, s). split; [reflexivity | exact H].
Qed.

(** X17: the panel of the minimum and maximum agrees with
    [get_business_insights]: whenever the latter returns its mapping on a
    non-empty frame, the panel shows the same two formatted figures
    behind its captions. *)
Theorem min_max_panel_agrees_with_insights (df : DataFrame) (m : gmap string PyVal) :
  Pandas.empty df = false ->
  get_business_insights df = Return m ->
  exists lo hi,
    m !! "Min_Purchase" = Some (PyStr lo)
    /\ m !! "Max_Purchase" = Some (PyStr hi)
    /\ min_max_section df
       = Return (MinMaxInfo ("**Minimum Purchase:** $" ++ lo)
                            ("**Maximum Purchase:** $" ++ hi)).
Proof.
  intros Hrows. unfold get_business_insights. rewrite Hrows.
  destruct (column df "customer_id") as [ids|e]; [|discriminate]. cbn [bind].
  destruct (column df "purchase_amount") as [s|e] eqn:Hcol; [|discriminate]. cbn [bind].
  destruct (column_getitem df _ s Hcol) as [Hget Hhas].
  unfold min_max_section. rewrite Hhas, Hget. cbn [bind].
  destruct s as [l|l|l|l|l]; try discriminate; cbn [numbers bind];
    (destruct (smallest _) as [lo|e]; [|discriminate]);
    (destruct (largest _) as [hi|e]; [|discriminate]); cbn [bind];
    intros [= <-]; exists (Fmt.format_2f lo), (Fmt.format_2f hi);
    (split; [reflexivity|]); (split; reflexivity).
Qed.

Lemma min_max_panel_agrees_with_insights_witness :
  min_max_section Sample.three_purchases
  = Return (MinMaxInfo "**Minimum Purchase:** $10.00" "**Maximum Purchase:** $30.00").
Proof.
  destruct (min_max_panel_agrees_with_insights Sample.three_purchases _
              eq_refl eq_refl) as (lo & hi & Hlo & Hhi & ->).
  injection Hlo as <-. injection Hhi as <-. reflexivity.
Defined.

(** *** Revenue by region *)

























End InsightPanels.

(** ** Ingestion: columns that cannot be loaded *)

Section Unloadable.

Import Pandas Pre.





End Unloadable.
